(** * The PubMed RCT dataset reader ([pubmed_rct.py])

    The reader turns a line-delimited JSON corpus into training examples:
    [_read] iterates over the lines of a file, decodes each one with
    [json.loads], looks up the keys [label], [sentence] and [pos], and hands
    the three values to [text_to_instance], which wraps them into fields.

    The development has four layers:
    - [Python values]: the values [json.loads] can return, exceptions, and
      the few dynamic operations the reader relies on (truth value,
      iteration, subscripting);
    - [json.loads]: the decoder of the Python standard library;
    - [AllenNLP]: tokens, fields, instances and [Params], as far as the
      reader touches them;
    - [PubmedRCTReader]: the four methods of the source file. *)

From Stdlib Require Import String Ascii List ZArith NArith Bool Lia.
From stdpp Require Import gmap strings list.

#[local] Set Warnings "-register-all".
#[local] Open Scope string_scope.

(** ** Python values *)

(** A Python [str] is kept as a [string] holding the UTF-8 bytes of the
    text. *)

(** Exceptions the reader can let through. *)
Inductive exn : Type :=
| JSONDecodeError                      (* json.loads: not a JSON document *)
| KeyError (key : string)              (* d[key], key absent *)
| TypeError                            (* value not iterable / not subscriptable *)
| ConfigurationError (msg : string)    (* allennlp.common.checks *)
| OSError (path : string)              (* cached_path / open *)
| NameError (name : string).           (* a name that is not bound *)

(** A computation that returns or raises. *)
Inductive result (A : Type) : Type :=
| Ok (a : A)
| Raise (e : exn).
Arguments Ok {A} a.
Arguments Raise {A} e.

#[global] Instance result_ret : MRet result := fun A a => Ok a.
#[global] Instance result_bind : MBind result := fun A B f m =>
  match m with
  | Ok a => f a
  | Raise e => Raise e
  end.
#[global] Instance result_fmap : FMap result := fun A B f m =>
  match m with
  | Ok a => Ok (f a)
  | Raise e => Raise e
  end.

(** A Python [float] produced by the decoder, kept as the decimal that was
    written ([m * 10^e], with its sign), or one of the three special
    values. *)
Inductive pyfloat : Type :=
| FDec (neg : bool) (m : N) (e : Z)
| FNaN
| FInf (neg : bool).

(** The values [json.loads] returns.  A [dict] keeps its insertion order,
    so it is an association list whose keys are pairwise distinct. *)
Inductive pyobj : Type :=
| PyNone
| PyBool (b : bool)
| PyInt (z : Z)
| PyFloat (f : pyfloat)
| PyStr (s : string)
| PyList (l : list pyobj)
| PyDict (d : list (string * pyobj)).

(** [d[key]] on a dict. *)
Fixpoint dict_get {V : Type} (d : list (string * V)) (key : string) : option V :=
  match d with
  | [] => None
  | (k, v) :: d' => if String.eqb k key then Some v else dict_get d' key
  end.

(** [d[key] = v]: an existing key keeps its position. *)
Fixpoint dict_set {V : Type} (d : list (string * V)) (key : string) (v : V)
  : list (string * V) :=
  match d with
  | [] => [(key, v)]
  | (k, w) :: d' =>
      if String.eqb k key then (k, v) :: d' else (k, w) :: dict_set d' key v
  end.

(** [del d[key]], nothing to do when the key is absent. *)
Fixpoint dict_del {V : Type} (d : list (string * V)) (key : string)
  : list (string * V) :=
  match d with
  | [] => []
  | (k, w) :: d' =>
      if String.eqb k key then d' else (k, w) :: dict_del d' key
  end.

(** [dict(pairs)]: later pairs overwrite earlier ones. *)
Definition dict_of_pairs {V : Type} (pairs : list (string * V))
  : list (string * V) :=
  fold_left (fun d kv => dict_set d (fst kv) (snd kv)) pairs [].

(** [obj[key]] for a string key. *)
Definition getitem (obj : pyobj) (key : string) : result pyobj :=
  match obj with
  | PyDict d =>
      match dict_get d key with
      | Some v => Ok v
      | None => Raise (KeyError key)
      end
  | _ => Raise TypeError
  end.

(** A float is false exactly when it is zero; a decimal [m * 10^e] rounds
    to zero when it is at most half the smallest subnormal, [2^-1075]. *)
Definition float_nonzero (f : pyfloat) : bool :=
  match f with
  | FDec _ m e =>
      if (m =? 0)%N then false
      else if (0 <=? e)%Z then true
      else (10 ^ (- e) <? Z.of_N m * 2 ^ 1075)%Z
  | FNaN => true
  | FInf _ => true
  end.

(** [bool(v)], the test behind [if v:] and [a or b]. *)
Definition truthy (v : pyobj) : bool :=
  match v with
  | PyNone => false
  | PyBool b => b
  | PyInt z => negb (z =? 0)%Z
  | PyFloat f => float_nonzero f
  | PyStr s => match s with EmptyString => false | String _ _ => true end
  | PyList l => match l with [] => false | _ :: _ => true end
  | PyDict d => match d with [] => false | _ :: _ => true end
  end.

(** The characters of a [str]: every byte that is not a UTF-8 continuation
    byte starts a new character. *)
Definition is_continuation (c : ascii) : bool :=
  let n := N_of_ascii c in (0x80 <=? n)%N && (n <? 0xC0)%N.

Definition starts_with_continuation (s : string) : bool :=
  match s with
  | String c _ => is_continuation c
  | EmptyString => false
  end.

Fixpoint str_chars (s : string) : list string :=
  match s with
  | EmptyString => []
  | String c r =>
      match str_chars r with
      | x :: xs =>
          if starts_with_continuation r then String c x :: xs
          else String c EmptyString :: x :: xs
      | [] => [String c EmptyString]
      end
  end.

(** [iter(v)], drained: what [for x in v] goes through. *)
Definition py_iter (v : pyobj) : result (list pyobj) :=
  match v with
  | PyList l => Ok l
  | PyStr s => Ok (PyStr <$> str_chars s)
  | PyDict d => Ok (PyStr <$> d.*1)
  | _ => Raise TypeError
  end.

(** ** [json.loads]

    The decoder of the standard library ([json/decoder.py],
    [json/scanner.py]), with its default settings: strict strings, no
    hooks, [NaN] and the infinities accepted.  The interpreter's recursion
    limit and its limit on the number of digits of an [int] are not part of
    the model. *)

Definition dquote : ascii := "034"%char.
Definition backslash : ascii := "092"%char.

(** [WHITESPACE]: space, tab, line feed, carriage return. *)
Definition is_ws (c : ascii) : bool :=
  Ascii.eqb c " " || Ascii.eqb c "009" || Ascii.eqb c "010" || Ascii.eqb c "013".

Fixpoint skip_ws (s : string) : string :=
  match s with
  | String c r => if is_ws c then skip_ws r else s
  | EmptyString => s
  end.

Definition is_digit (c : ascii) : bool :=
  let n := N_of_ascii c in (48 <=? n)%N && (n <=? 57)%N.

Definition hex_val (c : ascii) : option N :=
  let n := N_of_ascii c in
  if (48 <=? n)%N && (n <=? 57)%N then Some (n - 48)%N
  else if (65 <=? n)%N && (n <=? 70)%N then Some (n - 55)%N
  else if (97 <=? n)%N && (n <=? 102)%N then Some (n - 87)%N
  else None.

(** The four hexadecimal digits of a [\uXXXX] escape. *)
Definition decode_uXXXX (h1 h2 h3 h4 : ascii) : option N :=
  a ← hex_val h1; b ← hex_val h2; c ← hex_val h3; d ← hex_val h4;
  Some (((a * 16 + b) * 16 + c) * 16 + d)%N.

Definition byte (n : N) : ascii := ascii_of_N n.

(** [chr(u)], as UTF-8 bytes. *)
Definition chr (u : N) : string :=
  if (u <? 0x80)%N then String (byte u) EmptyString
  else if (u <? 0x800)%N then
    String (byte (0xC0 + u / 64)) (String (byte (0x80 + u mod 64)) EmptyString)
  else if (u <? 0x10000)%N then
    String (byte (0xE0 + u / 4096))
      (String (byte (0x80 + (u / 64) mod 64))
         (String (byte (0x80 + u mod 64)) EmptyString))
  else
    String (byte (0xF0 + u / 262144))
      (String (byte (0x80 + (u / 4096) mod 64))
         (String (byte (0x80 + (u / 64) mod 64))
            (String (byte (0x80 + u mod 64)) EmptyString))).

(** The [BACKSLASH] table of simple escapes. *)
Definition simple_escape (c : ascii) : option ascii :=
  if Ascii.eqb c dquote then Some dquote
  else if Ascii.eqb c backslash then Some backslash
  else if Ascii.eqb c "/" then Some "/"%char
  else if Ascii.eqb c "b" then Some "008"%char
  else if Ascii.eqb c "f" then Some "012"%char
  else if Ascii.eqb c "n" then Some "010"%char
  else if Ascii.eqb c "r" then Some "013"%char
  else if Ascii.eqb c "t" then Some "009"%char
  else None.

Definition is_high_surrogate (u : N) : bool := (0xD800 <=? u)%N && (u <=? 0xDBFF)%N.
Definition is_low_surrogate (u : N) : bool := (0xDC00 <=? u)%N && (u <=? 0xDFFF)%N.

(** [scanstring(s, end, strict=True)], from just after the opening quote:
    the decoded string and what follows the closing quote.  [None] stands
    for the decoder's error. *)
Fixpoint py_scanstring (s : string) : option (string * string) :=
  match s with
  | EmptyString => None
  | String c r =>
      if Ascii.eqb c dquote then Some (EmptyString, r)
      else if Ascii.eqb c backslash then
        match r with
        | EmptyString => None
        | String esc r1 =>
            if Ascii.eqb esc "u" then
              match r1 with
              | String h1 (String h2 (String h3 (String h4 r2))) =>
                  match decode_uXXXX h1 h2 h3 h4 with
                  | None => None
                  | Some u =>
                      let single :=
                        '(t, rest) ← py_scanstring r2; Some (chr u +:+ t, rest) in
                      if is_high_surrogate u then
                        match r2 with
                        | String b1 (String b2 (String k1 (String k2 (String k3 (String k4 r3))))) =>
                            if Ascii.eqb b1 backslash && Ascii.eqb b2 "u" then
                              match decode_uXXXX k1 k2 k3 k4 with
                              | None => None
                              | Some u2 =>
                                  if is_low_surrogate u2 then
                                    '(t, rest) ← py_scanstring r3;
                                    Some (chr (0x10000 + (u - 0xD800) * 1024
                                               + (u2 - 0xDC00)) +:+ t, rest)
                                  else single
                              end
                            else single
                        | _ => single
                        end
                      else single
                  end
              | _ => None
              end
            else
              match simple_escape esc with
              | Some c' =>
                  '(t, rest) ← py_scanstring r1; Some (String c' t, rest)
              | None => None
              end
        end
      else if (N_of_ascii c <? 0x20)%N then None
      else '(t, rest) ← py_scanstring r; Some (String c t, rest)
  end.

(** The longest run of digits at the head of [s], and the rest. *)
Fixpoint span_digits (s : string) : string * string :=
  match s with
  | String c r =>
      if is_digit c then let '(ds, rest) := span_digits r in (String c ds, rest)
      else (EmptyString, s)
  | EmptyString => (EmptyString, EmptyString)
  end.

Fixpoint digits_val (acc : N) (ds : string) : N :=
  match ds with
  | String c r => digits_val (acc * 10 + (N_of_ascii c - 48))%N r
  | EmptyString => acc
  end.

(** [s] without its prefix [p], when it starts with it. *)
Fixpoint strip_prefix (p s : string) : option string :=
  match p, s with
  | EmptyString, _ => Some s
  | String a p', String b s' => if Ascii.eqb a b then strip_prefix p' s' else None
  | String _ _, EmptyString => None
  end.

(** The integer part of [NUMBER_RE]: an optional minus sign, then either
    a single zero or a non-zero digit followed by digits. *)
Definition match_integer (s : string) : option (bool * string * string) :=
  let '(neg, s1) :=
    match s with
    | String c r => if Ascii.eqb c "-" then (true, r) else (false, s)
    | EmptyString => (false, s)
    end in
  match s1 with
  | String c r =>
      if Ascii.eqb c "0" then Some (neg, String c EmptyString, r)
      else if is_digit c then
        let '(ds, rest) := span_digits r in Some (neg, String c ds, rest)
      else None
  | EmptyString => None
  end.

(** The optional fraction, a dot and at least one digit: its digits,
    empty when absent. *)
Definition match_frac (s : string) : string * string :=
  match s with
  | String c r =>
      if Ascii.eqb c "." then
        match span_digits r with
        | (EmptyString, _) => (EmptyString, s)
        | (ds, rest) => (ds, rest)
        end
      else (EmptyString, s)
  | EmptyString => (EmptyString, s)
  end.

(** The optional exponent: [e] or [E], an optional sign, at least one
    digit. *)
Definition match_exp (s : string) : option Z * string :=
  match s with
  | String c r =>
      if Ascii.eqb c "e" || Ascii.eqb c "E" then
        let '(eneg, r1) :=
          match r with
          | String sg r' =>
              if Ascii.eqb sg "-" then (true, r')
              else if Ascii.eqb sg "+" then (false, r')
              else (false, r)
          | EmptyString => (false, r)
          end in
        match span_digits r1 with
        | (EmptyString, _) => (None, s)
        | (ds, rest) =>
            let v := Z.of_N (digits_val 0 ds) in
            (Some (if eneg then - v else v)%Z, rest)
        end
      else (None, s)
  | EmptyString => (None, s)
  end.

(** [NUMBER_RE.match]: an [int] when there is neither fraction nor
    exponent, a [float] otherwise. *)
Definition match_number (s : string) : option (pyobj * string) :=
  match match_integer s with
  | None => None
  | Some (neg, ds, s1) =>
      let '(fs, s2) := match_frac s1 in
      let '(ex, s3) := match_exp s2 in
      match fs, ex with
      | EmptyString, None =>
          let v := Z.of_N (digits_val 0 ds) in
          Some (PyInt (if neg then - v else v)%Z, s3)
      | _, _ =>
          let e := (default 0 ex - Z.of_nat (String.length fs))%Z in
          Some (PyFloat (FDec neg (digits_val 0 (ds +:+ fs)) e), s3)
      end
  end.

(** Outcome of a scan that consumes fuel. *)
Inductive scan (A : Type) : Type :=
| Scanned (a : A) (rest : string)
| Invalid
| OutOfFuel.
Arguments Scanned {A} a rest.
Arguments Invalid {A}.
Arguments OutOfFuel {A}.

Definition scan_map {A B : Type} (f : A → B) (x : scan A) : scan B :=
  match x with
  | Scanned a rest => Scanned (f a) rest
  | Invalid => Invalid
  | OutOfFuel => OutOfFuel
  end.

(** [scan_once], with [JSONArray] and [JSONObject] from just after the
    opening bracket (for an object: from just after the opening quote of
    a key). *)
Fixpoint scan_once (fuel : nat) (s : string) : scan pyobj :=
  match fuel with
  | O => OutOfFuel
  | S fuel =>
      match s with
      | EmptyString => Invalid
      | String c r =>
          if Ascii.eqb c dquote then
            match py_scanstring r with
            | Some (t, rest) => Scanned (PyStr t) rest
            | None => Invalid
            end
          else if Ascii.eqb c "{" then
            match skip_ws r with
            | String c1 r1 =>
                if Ascii.eqb c1 "}" then Scanned (PyDict []) r1
                else if Ascii.eqb c1 dquote then
                  scan_map (fun pairs => PyDict (dict_of_pairs pairs))
                           (JSONObject_pairs fuel r1)
                else Invalid
            | EmptyString => Invalid
            end
          else if Ascii.eqb c "[" then
            match skip_ws r with
            | String c1 r1 =>
                if Ascii.eqb c1 "]" then Scanned (PyList []) r1
                else scan_map PyList (JSONArray_values fuel (String c1 r1))
            | EmptyString => Invalid
            end
          else
            match strip_prefix "null" s, strip_prefix "true" s, strip_prefix "false" s with
            | Some rest, _, _ => Scanned PyNone rest
            | _, Some rest, _ => Scanned (PyBool true) rest
            | _, _, Some rest => Scanned (PyBool false) rest
            | None, None, None =>
                match match_number s with
                | Some (v, rest) => Scanned v rest
                | None =>
                    match strip_prefix "NaN" s, strip_prefix "Infinity" s,
                          strip_prefix "-Infinity" s with
                    | Some rest, _, _ => Scanned (PyFloat FNaN) rest
                    | _, Some rest, _ => Scanned (PyFloat (FInf false)) rest
                    | _, _, Some rest => Scanned (PyFloat (FInf true)) rest
                    | None, None, None => Invalid
                    end
                end
            end
      end
  end
with JSONArray_values (fuel : nat) (s : string) : scan (list pyobj) :=
  match fuel with
  | O => OutOfFuel
  | S fuel =>
      match scan_once fuel s with
      | Scanned v s1 =>
          match skip_ws s1 with
          | String c r =>
              if Ascii.eqb c "]" then Scanned [v] r
              else if Ascii.eqb c "," then
                scan_map (cons v) (JSONArray_values fuel (skip_ws r))
              else Invalid
          | EmptyString => Invalid
          end
      | Invalid => Invalid
      | OutOfFuel => OutOfFuel
      end
  end
with JSONObject_pairs (fuel : nat) (s : string) : scan (list (string * pyobj)) :=
  match fuel with
  | O => OutOfFuel
  | S fuel =>
      match py_scanstring s with
      | None => Invalid
      | Some (key, s1) =>
          match skip_ws s1 with
          | String c s2 =>
              if Ascii.eqb c ":" then
                match scan_once fuel (skip_ws s2) with
                | Scanned v s3 =>
                    match skip_ws s3 with
                    | String c3 s4 =>
                        if Ascii.eqb c3 "}" then Scanned [(key, v)] s4
                        else if Ascii.eqb c3 "," then
                          match skip_ws s4 with
                          | String c5 s5 =>
                              if Ascii.eqb c5 dquote then
                                scan_map (cons (key, v)) (JSONObject_pairs fuel s5)
                              else Invalid
                          | EmptyString => Invalid
                          end
                        else Invalid
                    | EmptyString => Invalid
                    end
                | Invalid => Invalid
                | OutOfFuel => OutOfFuel
                end
              else Invalid
          | EmptyString => Invalid
          end
      end
  end.

(** [json.loads(s)]: one value, surrounded by whitespace only.  Two units
    of fuel per character are enough (see [scan_once_fuel]), so the last
    case does not arise. *)
Definition json_loads (s : string) : result pyobj :=
  match scan_once (2 * String.length s + 1) (skip_ws s) with
  | Scanned v rest =>
      match skip_ws rest with
      | EmptyString => Ok v
      | String _ _ => Raise JSONDecodeError
      end
  | Invalid => Raise JSONDecodeError
  | OutOfFuel => Raise JSONDecodeError
  end.

(** ** AllenNLP, as far as the reader touches it *)

(** The host framework's two interfaces and what the reader takes from
    them: the default collaborators, and the factories that build
    collaborators from configuration. *)
Class AllenNLP : Type := {
  Tokenizer : Type;
  TokenIndexer : Type;
  WordTokenizer : Tokenizer;
  SingleIdTokenIndexer : TokenIndexer;
  Tokenizer_from_params : pyobj → result Tokenizer;
  TokenIndexer_dict_from_params : pyobj → result (gmap string TokenIndexer);
}.

(** [Token(t)]: only [text] is set, and it is not inspected. *)
Record Token : Type := { text : pyobj }.

(** What the world outside the interpreter answers: [cached_path] resolves
    an identifier to a local path, [open(path, 'r')] gives the text of the
    file as the file object delivers it (decoded, line ends translated).
    The file either delivers its whole text or fails when it is opened: an
    error raised while the lines are delivered is not part of the model. *)
Record World : Type := {
  cached_path : string → result string;
  open_read : string → result string;
}.

(** [for line in file]: every line keeps its line feed; a last line
    without one is a line too. *)
Fixpoint file_lines (content : string) : list string :=
  match content with
  | EmptyString => []
  | String c r =>
      if Ascii.eqb c "010" then String c EmptyString :: file_lines r
      else
        match file_lines r with
        | [] => [String c EmptyString]
        | l :: ls => String c l :: ls
        end
  end.

(** [Params]: a dict of configuration values that is consumed by [pop]. *)
Definition Params : Type := list (string * pyobj).

(** [params.pop(key, default)]: the value and the params left. *)
Definition Params_pop (params : Params) (key : string) (default : pyobj)
  : pyobj * Params :=
  match dict_get params key with
  | Some v => (v, dict_del params key)
  | None => (default, params)
  end.

(** [params.assert_empty(class_name)]; the message leaves out the printed
    form of the params left over. *)
Definition Params_assert_empty (params : Params) (class_name : string)
  : result unit :=
  match params with
  | [] => Ok ()
  | _ :: _ => Raise (ConfigurationError ("Extra parameters passed to " +:+ class_name))
  end.

(** The names bound in the module when the class body runs: those of the
    import statements (lines 1 to 11). *)
Definition module_globals : list string :=
  ["json"; "Dict"; "overrides"; "cached_path"; "DatasetReader"; "Field";
   "TextField"; "LabelField"; "Instance"; "SingleIdTokenIndexer"; "TokenIndexer";
   "Token"; "Tokenizer"; "WordTokenizer"].

(** The builtins the file names. *)
Definition builtins : list string :=
  ["classmethod"; "str"; "list"; "bool"; "open"; "super"].

(** Evaluating a name: it is looked up in the module, then in the
    builtins. *)
Definition load_name (name : string) : result unit :=
  if existsb (String.eqb name) (module_globals ++ builtins)%list then Ok ()
  else Raise (NameError name).

Section Reader.
Context `{AllenNLP}.

(** The two kinds of field the reader builds. *)
Inductive Field : Type :=
| TextField (tokens : list Token) (token_indexers : gmap string TokenIndexer)
| LabelField (label : string).

(** [LabelField(label)] with the default [skip_indexing=False]: the
    label has to be a [str]. *)
Definition LabelField_init (label : pyobj) : result Field :=
  match label with
  | PyStr s => Ok (LabelField s)
  | _ => Raise (ConfigurationError
                  "LabelFields must be passed a string label if skip_indexing=False.")
  end.

(** [Instance(fields)] *)
Record Instance : Type := { fields : gmap string Field }.

(** The reader object. *)
Record PubmedRCTReader : Type := {
  lazy : bool;
  _tokenizer : Tokenizer;
  _token_indexers : gmap string TokenIndexer;
}.

(** [a or b] for an optional object. *)
Definition or_default {A : Type} (is_true : A → bool) (a : option A) (b : A) : A :=
  match a with
  | Some x => if is_true x then x else b
  | None => b
  end.

(** [PubmedRCTReader.__init__] *)
Definition __init__ (tokenizer : option Tokenizer)
    (token_indexers : option (gmap string TokenIndexer)) (lazy : bool)
  : PubmedRCTReader :=
  {| lazy := lazy;
     _tokenizer := or_default (λ _, true) tokenizer WordTokenizer;
     _token_indexers :=
       or_default (λ d, negb (bool_decide (d = ∅))) token_indexers
                  {[ "tokens" := SingleIdTokenIndexer ]} |}.

(** [PubmedRCTReader.text_to_instance]; the default [label=None] is
    [PyNone]. *)
Definition text_to_instance (self : PubmedRCTReader) (sent pos label : pyobj)
  : result Instance :=
  let fields : gmap string Field := ∅ in
  sent_tokens ← fmap Build_Token <$> py_iter sent;
  pos_tokens ← fmap Build_Token <$> py_iter pos;
  let fields := <[ "sentence" := TextField sent_tokens (_token_indexers self) ]> fields in
  let fields := <[ "pos" := TextField pos_tokens (_token_indexers self) ]> fields in
  if truthy label then
    label_field ← LabelField_init label;
    Ok {| fields := <[ "label" := label_field ]> fields |}
  else
    Ok {| fields := fields |}.

(** The body of the loop of [_read]: one line to one instance. *)
Definition read_line (self : PubmedRCTReader) (line : string) : result Instance :=
  example ← json_loads line;
  label ← getitem example "label";
  sent ← getitem example "sentence";
  pos ← getitem example "pos";
  text_to_instance self sent pos label.

(** A generator, run to its end: what it yielded, and the exception that
    ended it, if one did. *)
Definition generated (A : Type) : Type := list A * option exn.

(** The loop of [_read] over the lines of the open file. *)
Fixpoint read_lines (self : PubmedRCTReader) (lines : list string)
  : generated Instance :=
  match lines with
  | [] => ([], None)
  | line :: rest =>
      match read_line self line with
      | Ok instance =>
          let '(out, err) := read_lines self rest in (instance :: out, err)
      | Raise e => ([], Some e)
      end
  end.

(** [PubmedRCTReader._read] *)
Definition _read (w : World) (self : PubmedRCTReader) (file_path : string)
  : generated Instance :=
  match cached_path w file_path with
  | Raise e => ([], Some e)
  | Ok file_path =>
      match open_read w file_path with
      | Raise e => ([], Some e)
      | Ok file => read_lines self (file_lines file)
      end
  end.

(** The body of [PubmedRCTReader.from_params] (lines 67 to 70). *)
Definition from_params_body (params : Params) : result PubmedRCTReader :=
  let '(tokenizer_params, params) := Params_pop params "tokenizer" (PyDict []) in
  tokenizer ← Tokenizer_from_params tokenizer_params;
  let '(indexer_params, params) := Params_pop params "token_indexers" (PyDict []) in
  token_indexers ← TokenIndexer_dict_from_params indexer_params;
  _ ← Params_assert_empty params "PubmedRCTReader";
  Ok (__init__ (Some tokenizer) (Some token_indexers) false).

(** The [def] statement of [from_params] (lines 65 and 66), executed in the
    class body: the decorator and the annotation of [params] are evaluated
    then, before there is a function to call; the annotation of the result
    is a string literal and names nothing. *)
Definition def_from_params : result (Params → result PubmedRCTReader) :=
  _ ← load_name "classmethod";
  _ ← load_name "Params";
  Ok from_params_body.

(** [PubmedRCTReader.from_params]: the function the [def] statement
    leaves, called. *)
Definition from_params (params : Params) : result PubmedRCTReader :=
  f ← def_from_params; f params.

End Reader.

(** ** Basic facts *)

Lemma bind_Ok {A B : Type} (m : result A) (f : A → result B) (b : B) :
  m ≫= f = Ok b ↔ ∃ a, m = Ok a ∧ f a = Ok b.
Proof.
  destruct m as [a|e]; simpl; split.
  - eauto.
  - by intros (a' & [= ->] & ?).
  - done.
  - by intros (? & ? & ?).
Qed.

Lemma dict_get_del_ne {V : Type} (d : list (string * V)) (k k' : string) :
  k ≠ k' → dict_get (dict_del d k) k' = dict_get d k'.
Proof.
  intros Hne. induction d as [|[k0 v] d IH]; simpl; [done|].
  destruct (String.eqb_spec k0 k) as [->|Hk].
  - destruct (String.eqb_spec k k'); [done|done].
  - simpl. by rewrite IH.
Qed.

Lemma dict_get_nil_inv {V : Type} (d : list (string * V)) (k : string) :
  is_Some (dict_get d k) → d ≠ [].
Proof. by destruct d; [intros [? [=]]|]. Qed.



Section Reader_facts.
Context `{AllenNLP}.
Implicit Types (self : PubmedRCTReader) (lines : list string).

(** The two text fields of an instance built from the items of the
    sentence and of the tags. *)
Definition text_fields self (sent_items pos_items : list pyobj)
  : gmap string Field :=
  <[ "pos" := TextField (Build_Token <$> pos_items) (_token_indexers self) ]>
    (<[ "sentence" := TextField (Build_Token <$> sent_items) (_token_indexers self) ]> ∅).

(** On lists, the conversion cannot fail before the label is looked at. *)
Lemma text_to_instance_lists self (sent pos : list pyobj) (label : pyobj) :
  text_to_instance self (PyList sent) (PyList pos) label =
  if truthy label then
    label_field ← LabelField_init label;
    Ok {| fields := <[ "label" := label_field ]> (text_fields self sent pos) |}
  else Ok {| fields := text_fields self sent pos |}.
Proof. reflexivity. Qed.

(** Whatever the arguments, an instance that is returned has this form. *)
Lemma text_to_instance_Ok self (sent pos label : pyobj) (instance : Instance) :
  text_to_instance self sent pos label = Ok instance →
  ∃ sent_items pos_items,
    py_iter sent = Ok sent_items ∧ py_iter pos = Ok pos_items ∧
    ((truthy label = false ∧
      fields instance = text_fields self sent_items pos_items) ∨
     (∃ s, label = PyStr s ∧ s ≠ EmptyString ∧
           fields instance =
             <[ "label" := LabelField s ]> (text_fields self sent_items pos_items))).
Proof.
  unfold text_to_instance. intros Hret.
  destruct (py_iter sent) as [sent_items|] eqn:Hsent; [|done].
  destruct (py_iter pos) as [pos_items|] eqn:Hpos; [|done].
  exists sent_items, pos_items. split; [done|]. split; [done|].
  simpl in Hret. destruct (truthy label) eqn:Htruthy.
  - right. destruct label; try done. simpl in Hret.
    injection Hret as <-. exists s. split; [done|]. split; [|done].
    by destruct s.
  - left. by injection Hret as <-.
Qed.

(** One turn of the loop. *)
Lemma read_lines_cons_Ok self (line : string) lines (instance : Instance) :
  read_line self line = Ok instance →
  read_lines self (line :: lines)
  = (instance :: (read_lines self lines).1, (read_lines self lines).2).
Proof. intros Hline. simpl. rewrite Hline. by destruct (read_lines self lines). Qed.


(** How [read_lines] ends: every instance yielded is the conversion of the
    line at the same position, and the run stops either after the last
    line or at the first line whose conversion raises. *)
Lemma read_lines_spec self lines (out : list Instance) (err : option exn) :
  read_lines self lines = (out, err) →
  Forall2 (λ line instance, read_line self line = Ok instance)
          (take (length out) lines) out ∧
  match err with
  | None => length out = length lines
  | Some e => ∃ line, lines !! length out = Some line ∧ read_line self line = Raise e
  end.
Proof.
  revert out err. induction lines as [|line lines IH]; intros out err; simpl.
  - intros [= <- <-]. split; [constructor|done].
  - destruct (read_line self line) as [instance|e] eqn:Hline.
    + destruct (read_lines self lines) as [out' err'] eqn:Hrest.
      intros [= <- <-]. destruct (IH _ _ eq_refl) as [Hall Hend]. simpl. split.
      * by constructor.
      * destruct err'; [done|]. by rewrite Hend.
    + intros [= <- <-]. simpl. split; [constructor|]. eauto.
Qed.

Lemma read_lines_lookup self lines out err (i : nat) (instance : Instance) :
  read_lines self lines = (out, err) → out !! i = Some instance →
  ∃ line, lines !! i = Some line ∧ read_line self line = Ok instance.
Proof.
  intros Hrun Hi. destruct (read_lines_spec _ _ _ _ Hrun) as [Hall _].
  destruct (Forall2_lookup_r _ _ _ _ _ Hall Hi) as (line & Hline & Hok).
  exists line. split; [|done].
  apply lookup_take_Some in Hline. tauto.
Qed.

Lemma read_lines_length self lines out err :
  read_lines self lines = (out, err) → (length out ≤ length lines)%nat.
Proof.
  intros Hrun. destruct (read_lines_spec _ _ _ _ Hrun) as [Hall _].
  apply Forall2_length in Hall. rewrite length_take in Hall. lia.
Qed.

(** A line whose conversion raises stops the run at that line or before. *)
Lemma read_lines_raise self lines out err (i : nat) (line : string) (e : exn) :
  read_lines self lines = (out, err) →
  lines !! i = Some line → read_line self line = Raise e →
  (length out ≤ i)%nat ∧ err ≠ None ∧ (length out = i → err = Some e).
Proof.
  intros Hrun Hi Hraise.
  destruct (read_lines_spec _ _ _ _ Hrun) as [Hall Hend].
  assert (length out ≤ i)%nat as Hle.
  { destruct (decide (length out ≤ i)%nat) as [|Hgt]; [done|].
    assert (is_Some (out !! i)) as [instance Hinst] by (apply lookup_lt_is_Some; lia).
    destruct (read_lines_lookup _ _ _ _ _ _ Hrun Hinst) as (line' & Hline' & Hok).
    congruence. }
  split; [done|]. destruct err as [e'|].
  - split; [done|]. intros <-. destruct Hend as (line' & Hline' & Hraise').
    congruence.
  - apply lookup_lt_Some in Hi. lia.
Qed.

(** When every line before position [i] converts, the run gets to [i]. *)
Lemma read_lines_reach self lines out err (i : nat) :
  read_lines self lines = (out, err) → (i ≤ length lines)%nat →
  (∀ j line, (j < i)%nat → lines !! j = Some line → ∃ instance, read_line self line = Ok instance) →
  (i ≤ length out)%nat.
Proof.
  intros Hrun Hi Hbefore.
  destruct (read_lines_spec _ _ _ _ Hrun) as [_ Hend].
  destruct err as [e|]; [|lia].
  destruct Hend as (line & Hline & Hraise).
  destruct (decide (i ≤ length out)%nat) as [|Hlt]; [done|].
  destruct (Hbefore (length out) line) as [instance Hok]; [lia|done|congruence].
Qed.

(** With the path resolved and the file open, [_read] is the loop. *)
Definition opens (w : World) (file_path content : string) : Prop :=
  ∃ local_path, cached_path w file_path = Ok local_path ∧
                open_read w local_path = Ok content.

Lemma _read_opens (w : World) self (file_path content : string) :
  opens w file_path content →
  _read w self file_path = read_lines self (file_lines content).
Proof. intros (local_path & Hpath & Hopen). unfold _read. by rewrite Hpath, Hopen. Qed.

End Reader_facts.

(** ** The conversion: [text_to_instance] *)

(** The arguments the signature announces: a list of strings, and a label
    that is a string or absent. *)
Definition str_list (l : list string) : pyobj := PyList (PyStr <$> l).
Definition opt_str (label : option string) : pyobj := from_option PyStr PyNone label.

Section Conversion.
Context `{AllenNLP}.
Implicit Types (self : PubmedRCTReader) (S P : list string) (label : option string).

Lemma truthy_opt_str label :
  truthy (opt_str label) = true ↔ ∃ s, label = Some s ∧ s ≠ EmptyString.
Proof.
  destruct label as [[|c s]|]; simpl; split; try done.
  - by intros (s & [= <-] & ?).
  - intros _. by eexists.
  - by intros (s & [=] & ?).
Qed.

(** The label field of an instance built from a typed label. *)
Definition label_of label : option Field :=
  match label with
  | Some (String c s) => Some (LabelField (String c s))
  | _ => None
  end.

(** The instance a typed call returns. *)
Definition instance_of self S P label : Instance :=
  {| fields :=
       match label_of label with
       | Some label_field =>
           <[ "label" := label_field ]> (text_fields self (PyStr <$> S) (PyStr <$> P))
       | None => text_fields self (PyStr <$> S) (PyStr <$> P)
       end |}.

Lemma text_to_instance_typed self S P label :
  text_to_instance self (str_list S) (str_list P) (opt_str label)
  = Ok (instance_of self S P label).
Proof.
  unfold str_list. rewrite text_to_instance_lists.
  by destruct label as [[|c s]|].
Qed.

Lemma text_fields_sentence self (sent_items pos_items : list pyobj) :
  text_fields self sent_items pos_items !! "sentence"
  = Some (TextField (Build_Token <$> sent_items) (_token_indexers self)).
Proof. unfold text_fields. by rewrite lookup_insert_ne, lookup_insert_eq. Qed.

Lemma text_fields_pos self (sent_items pos_items : list pyobj) :
  text_fields self sent_items pos_items !! "pos"
  = Some (TextField (Build_Token <$> pos_items) (_token_indexers self)).
Proof. unfold text_fields. by rewrite lookup_insert_eq. Qed.

Lemma text_fields_label self (sent_items pos_items : list pyobj) :
  text_fields self sent_items pos_items !! "label" = None.
Proof. unfold text_fields. by rewrite !lookup_insert_ne. Qed.

Lemma text_fields_dom self (sent_items pos_items : list pyobj) :
  dom (text_fields self sent_items pos_items) = {[ "sentence"; "pos" ]}.
Proof.
  unfold text_fields. rewrite !dom_insert_L, dom_empty_L.
  apply set_eq. intros x. rewrite !elem_of_union, !elem_of_singleton, elem_of_empty. tauto.
Qed.

(** C2. For token lists [S] and [P] of any lengths (and a label that is a
    string or absent), [text_to_instance] returns an instance whose
    [sentence] field holds exactly [length S] tokens and whose [pos] field
    holds exactly [length P] tokens, the i-th token of each field being the
    i-th string of the corresponding list. *)
Theorem text_to_instance_tokens self S P label :
  ∃ (instance : Instance) (sent_tokens pos_tokens : list Token),
    text_to_instance self (str_list S) (str_list P) (opt_str label) = Ok instance ∧
    fields instance !! "sentence" = Some (TextField sent_tokens (_token_indexers self)) ∧
    fields instance !! "pos" = Some (TextField pos_tokens (_token_indexers self)) ∧
    length sent_tokens = length S ∧
    length pos_tokens = length P ∧
    (∀ i : nat, text <$> sent_tokens !! i = PyStr <$> S !! i) ∧
    (∀ i : nat, text <$> pos_tokens !! i = PyStr <$> P !! i).
Proof.
  exists (instance_of self S P label),
         (Build_Token <$> (PyStr <$> S)), (Build_Token <$> (PyStr <$> P)).
  split; [apply text_to_instance_typed|].
  assert (∀ l : list string, ∀ i : nat,
            text <$> (Build_Token <$> (PyStr <$> l)) !! i = PyStr <$> l !! i) as Hnth.
  { intros l i. rewrite !list_lookup_fmap. by destruct (l !! i). }
  repeat split; try apply Hnth; try by rewrite !length_fmap.
  - unfold instance_of; simpl. destruct (label_of label).
    + rewrite lookup_insert_ne by done. apply text_fields_sentence.
    + apply text_fields_sentence.
  - unfold instance_of; simpl. destruct (label_of label).
    + rewrite lookup_insert_ne by done. apply text_fields_pos.
    + apply text_fields_pos.
Qed.

(** C3. Whatever the arguments, an instance returned by
    [text_to_instance] has a [label] field if and only if the label passed
    is a non-empty string, and that field then holds the string itself; on
    typed arguments an instance is returned, with no [label] field for an
    absent or empty label. *)
Theorem text_to_instance_label self :
  (∀ (sent pos label : pyobj) (instance : Instance),
     text_to_instance self sent pos label = Ok instance →
     (is_Some (fields instance !! "label") ↔ ∃ s, label = PyStr s ∧ s ≠ EmptyString) ∧
     (∀ s, label = PyStr s → s ≠ EmptyString →
           fields instance !! "label" = Some (LabelField s))) ∧
  (∀ S P label, ∃ instance : Instance,
     text_to_instance self (str_list S) (str_list P) (opt_str label) = Ok instance ∧
     fields instance !! "label" =
       match label with
       | None => None
       | Some s => if decide (s = EmptyString) then None else Some (LabelField s)
       end).
Proof.
  split.
  - intros sent pos label instance Hret.
    destruct (text_to_instance_Ok _ _ _ _ _ Hret)
      as (sent_items & pos_items & _ & _ & [[Hfalse ->] | (s & -> & Hne & ->)]).
    + rewrite text_fields_label. split; [split|].
      * by intros [? [=]].
      * intros (s & -> & Hne). by destruct s.
      * intros s -> Hne. by destruct s.
    + rewrite lookup_insert_eq. split; [split|]; eauto.
      by intros s' [= <-] _.
  - intros S P label. exists (instance_of self S P label).
    split; [apply text_to_instance_typed|].
    unfold instance_of; simpl. destruct label as [[|c s]|]; simpl.
    + apply text_fields_label.
    + by rewrite lookup_insert_eq.
    + apply text_fields_label.
Qed.

(** C8. [text_to_instance] is total on lists of strings: for every pair of
    token lists, empty or of unequal lengths, it returns an instance and
    raises nothing; an empty sentence list gives an empty text field. *)
Theorem text_to_instance_total self :
  (∀ S P label, ∃ instance : Instance,
     text_to_instance self (str_list S) (str_list P) (opt_str label) = Ok instance) ∧
  (∀ P label, ∃ instance : Instance,
     text_to_instance self (str_list []) (str_list P) (opt_str label) = Ok instance ∧
     fields instance !! "sentence" = Some (TextField [] (_token_indexers self))).
Proof.
  split.
  - intros S P label. eexists. apply text_to_instance_typed.
  - intros P label. exists (instance_of self [] P label).
    split; [apply text_to_instance_typed|].
    unfold instance_of; simpl. destruct (label_of label).
    + rewrite lookup_insert_ne by done. apply text_fields_sentence.
    + apply text_fields_sentence.
Qed.

(** The conversion reads nothing of the reader but its token indexers. *)
Lemma text_to_instance_indexers self1 self2 (sent pos label : pyobj) :
  _token_indexers self1 = _token_indexers self2 →
  text_to_instance self1 sent pos label = text_to_instance self2 sent pos label.
Proof. unfold text_to_instance. by intros ->. Qed.

Lemma read_lines_indexers self1 self2 (lines : list string) :
  _token_indexers self1 = _token_indexers self2 →
  read_lines self1 lines = read_lines self2 lines.
Proof.
  intros Heq. induction lines as [|line lines IH]; simpl; [done|].
  unfold read_line. rewrite IH.
  destruct (json_loads line) as [example|]; simpl; [|done].
  destruct (getitem example "label") as [lbl|]; simpl; [|done].
  destruct (getitem example "sentence") as [sent|]; simpl; [|done].
  destruct (getitem example "pos") as [pos|]; simpl; [|done].
  by rewrite (text_to_instance_indexers _ _ _ _ _ Heq).
Qed.

(** C9. The tokenizer is never used: two readers constructed with
    different tokenizers and otherwise the same arguments convert the same
    inputs to equal results, and read the same file to equal results. *)
Theorem tokenizer_unused (tokenizer1 tokenizer2 : option Tokenizer)
    (token_indexers : option (gmap string TokenIndexer)) (lazy : bool) :
  let self1 := __init__ tokenizer1 token_indexers lazy in
  let self2 := __init__ tokenizer2 token_indexers lazy in
  (∀ sent pos label : pyobj,
     text_to_instance self1 sent pos label = text_to_instance self2 sent pos label) ∧
  (∀ (w : World) (file_path : string),
     _read w self1 file_path = _read w self2 file_path).
Proof.
  intros self1 self2. split.
  - intros sent pos label. by apply text_to_instance_indexers.
  - intros w file_path. unfold _read.
    destruct (cached_path w file_path) as [local_path|]; [|done].
    destruct (open_read w local_path) as [content|]; [|done].
    by apply read_lines_indexers.
Qed.

End Conversion.

(** ** Reading: [_read] *)

Lemma field_names_text :
  ({[ "sentence"; "pos" ]} : gset string) ⊆ {[ "sentence"; "pos"; "label" ]}.
Proof. apply union_subseteq_l. Qed.

Lemma field_names_label :
  ({[ "label" ]} ∪ {[ "sentence"; "pos" ]} : gset string)
  ⊆ {[ "sentence"; "pos"; "label" ]}.
Proof. intros x. rewrite !elem_of_union, !elem_of_singleton. tauto. Qed.

Section Reading.
Context `{AllenNLP}.
Implicit Types (self : PubmedRCTReader) (w : World) (lines : list string).
Implicit Types (S P : list string) (label : option string).

(** A line is a well-formed record when it decodes to an object that has
    the three keys, [sentence] and [pos] being lists of strings and
    [label] a string (or null). *)
Definition record (line : string) label S P : Prop :=
  ∃ d, json_loads line = Ok (PyDict d) ∧
       dict_get d "label" = Some (opt_str label) ∧
       dict_get d "sentence" = Some (str_list S) ∧
       dict_get d "pos" = Some (str_list P).

Definition well_formed (line : string) : Prop := ∃ label S P, record line label S P.

(** A line the loop body turns into an instance. *)
Definition readable self (line : string) : Prop :=
  ∃ instance : Instance, read_line self line = Ok instance.

Lemma read_line_record self (line : string) label S P :
  record line label S P →
  read_line self line = text_to_instance self (str_list S) (str_list P) (opt_str label).
Proof.
  intros (d & Hloads & Hlabel & Hsent & Hpos). unfold read_line.
  rewrite Hloads; simpl. by rewrite Hlabel, Hsent, Hpos.
Qed.

Lemma well_formed_readable self (line : string) : well_formed line → readable self line.
Proof.
  intros (label & S & P & Hrec). exists (instance_of self S P label).
  rewrite (read_line_record _ _ _ _ _ Hrec). apply text_to_instance_typed.
Qed.

(** The first of the three keys that [d] lacks is the one the lookup
    error names. *)
Lemma read_line_missing_key self (line : string) (d : list (string * pyobj)) :
  json_loads line = Ok (PyDict d) →
  dict_get d "label" = None ∨ dict_get d "sentence" = None ∨ dict_get d "pos" = None →
  ∃ key, key ∈ ["label"; "sentence"; "pos"] ∧ dict_get d key = None ∧
         read_line self line = Raise (KeyError key).
Proof.
  intros Hloads Hmissing. unfold read_line. rewrite Hloads; simpl.
  destruct (dict_get d "label") as [lbl|] eqn:Hlabel; simpl;
    [|exists "label"; split; [by repeat constructor|done]].
  destruct (dict_get d "sentence") as [sent|] eqn:Hsent; simpl;
    [|exists "sentence"; split; [by repeat constructor|done]].
  destruct (dict_get d "pos") as [pos|] eqn:Hpos; simpl;
    [|exists "pos"; split; [by repeat constructor|done]].
  by destruct Hmissing as [|[|]].
Qed.

Lemma read_line_invalid self (line : string) :
  json_loads line = Raise JSONDecodeError → read_line self line = Raise JSONDecodeError.
Proof. intros Hloads. unfold read_line. by rewrite Hloads. Qed.

(** C1. When every line of the file is a well-formed record, [_read] ends
    without an error and has yielded exactly one instance per line, the
    i-th instance being the conversion of the i-th line. *)
Theorem read_well_formed w self (file_path content : string) :
  opens w file_path content →
  Forall well_formed (file_lines content) →
  ∃ out : list Instance,
    _read w self file_path = (out, None) ∧
    length out = length (file_lines content) ∧
    ∀ (i : nat) (line : string) label S P,
      file_lines content !! i = Some line → record line label S P →
      ∃ instance : Instance,
        out !! i = Some instance ∧
        text_to_instance self (str_list S) (str_list P) (opt_str label) = Ok instance.
Proof.
  intros Hopen Hall. rewrite (_read_opens _ _ _ _ Hopen).
  destruct (read_lines self (file_lines content)) as [out err] eqn:Hrun.
  destruct (read_lines_spec _ _ _ _ Hrun) as [Hout Hend].
  destruct err as [e|].
  { destruct Hend as (line & Hline & Hraise).
    apply list_elem_of_lookup_2 in Hline.
    rewrite Forall_forall in Hall.
    destruct (well_formed_readable self line (Hall _ Hline)) as [? ?]. congruence. }
  exists out. split; [done|]. split; [done|].
  intros i line label S P Hline Hrec.
  rewrite Hend, firstn_all in Hout.
  destruct (Forall2_lookup_l _ _ _ _ _ Hout Hline) as (instance & Hinst & Hok).
  exists instance. split; [done|].
  by rewrite <- (read_line_record _ _ _ _ _ Hrec).
Qed.

(** C4. A line that decodes to a JSON object lacking one of the keys
    [label], [sentence], [pos] makes [_read] fail: no instance of that
    line or of a later one is yielded, the failure raised on that line is
    the lookup error for a key the object lacks, and the failure is on
    that line whenever the lines before it are read.  The error ends the
    run: it is not caught. *)
Theorem read_missing_key w self (file_path content : string) (i : nat)
    (line : string) (d : list (string * pyobj)) :
  opens w file_path content →
  file_lines content !! i = Some line →
  json_loads line = Ok (PyDict d) →
  dict_get d "label" = None ∨ dict_get d "sentence" = None ∨ dict_get d "pos" = None →
  ∃ (out : list Instance) (e : exn) (key : string),
    _read w self file_path = (out, Some e) ∧
    (length out ≤ i)%nat ∧
    key ∈ ["label"; "sentence"; "pos"] ∧ dict_get d key = None ∧
    (length out = i → e = KeyError key) ∧
    ((∀ (j : nat) (l : string),
        (j < i)%nat → file_lines content !! j = Some l → readable self l) →
     length out = i).
Proof.
  intros Hopen Hline Hloads Hmissing. rewrite (_read_opens _ _ _ _ Hopen).
  destruct (read_line_missing_key self _ _ Hloads Hmissing) as (key & Hkey & Hnone & Hraise).
  destruct (read_lines self (file_lines content)) as [out err] eqn:Hrun.
  destruct (read_lines_raise _ _ _ _ _ _ _ Hrun Hline Hraise) as (Hle & Herr & Hat).
  destruct err as [e|]; [|done].
  exists out, e, key. repeat split; try done.
  - intros Hlen. specialize (Hat Hlen). congruence.
  - intros Hbefore. apply Nat.le_antisymm; [done|].
    apply (read_lines_reach _ _ _ _ _ Hrun); [|done].
    apply lookup_lt_Some in Hline. lia.
Qed.

(** C5. A line that is not valid JSON makes [_read] fail: every instance
    yielded is the conversion of the line at the same position (no line is
    skipped) and that position is strictly before the invalid line, the
    failure raised at the invalid line is the parse failure, and the
    failure is at that line whenever the lines before it are read. *)
Theorem read_invalid_json w self (file_path content : string) (i : nat)
    (line : string) :
  opens w file_path content →
  file_lines content !! i = Some line →
  json_loads line = Raise JSONDecodeError →
  ∃ (out : list Instance) (e : exn),
    _read w self file_path = (out, Some e) ∧
    (∀ (j : nat) (instance : Instance), out !! j = Some instance →
       (j < i)%nat ∧
       ∃ l, file_lines content !! j = Some l ∧ read_line self l = Ok instance) ∧
    (length out = i → e = JSONDecodeError) ∧
    ((∀ (j : nat) (l : string),
        (j < i)%nat → file_lines content !! j = Some l → readable self l) →
     length out = i).
Proof.
  intros Hopen Hline Hloads. rewrite (_read_opens _ _ _ _ Hopen).
  pose proof (read_line_invalid self _ Hloads) as Hraise.
  destruct (read_lines self (file_lines content)) as [out err] eqn:Hrun.
  destruct (read_lines_raise _ _ _ _ _ _ _ Hrun Hline Hraise) as (Hle & Herr & Hat).
  destruct err as [e|]; [|done].
  exists out, e. split; [done|]. split; [|split].
  - intros j instance Hj. split.
    + apply lookup_lt_Some in Hj. lia.
    + by apply (read_lines_lookup _ _ _ _ _ _ Hrun).
  - intros Hlen. specialize (Hat Hlen). congruence.
  - intros Hbefore. apply Nat.le_antisymm; [done|].
    apply (read_lines_reach _ _ _ _ _ Hrun); [|done].
    apply lookup_lt_Some in Hline. lia.
Qed.


(** The form of every instance the reader builds. *)
Definition well_shaped self (instance : Instance) : Prop :=
  (∃ tokens, fields instance !! "sentence" = Some (TextField tokens (_token_indexers self))) ∧
  (∃ tokens, fields instance !! "pos" = Some (TextField tokens (_token_indexers self))) ∧
  dom (fields instance) ⊆ {[ "sentence"; "pos"; "label" ]}.

(** C10. Every instance returned by [text_to_instance], and so every
    instance yielded by [_read], has a [sentence] field and a [pos] field,
    has no field other than [sentence], [pos] and [label], and its two text
    fields carry the token indexers of the reader. *)
Theorem instance_well_shaped self :
  (∀ (sent pos label : pyobj) (instance : Instance),
     text_to_instance self sent pos label = Ok instance → well_shaped self instance) ∧
  (∀ w (file_path : string) (instance : Instance),
     instance ∈ (_read w self file_path).1 → well_shaped self instance).
Proof.
  assert (∀ (sent pos label : pyobj) (instance : Instance),
            text_to_instance self sent pos label = Ok instance →
            well_shaped self instance) as Hconv.
  { intros sent pos label instance Hret.
    destruct (text_to_instance_Ok _ _ _ _ _ Hret)
      as (sent_items & pos_items & _ & _ & [[_ Hf] | (s & _ & _ & Hf)]);
      unfold well_shaped; rewrite Hf.
    - rewrite text_fields_sentence, text_fields_pos, text_fields_dom.
      split; [eauto|]. split; [eauto|]. apply field_names_text.
    - rewrite !lookup_insert_ne by done.
      rewrite text_fields_sentence, text_fields_pos, dom_insert_L, text_fields_dom.
      split; [eauto|]. split; [eauto|]. apply field_names_label. }
  split; [done|].
  intros w file_path instance. unfold _read.
  destruct (cached_path w file_path) as [local_path|]; [|by intros ?%elem_of_nil].
  destruct (open_read w local_path) as [content|]; [|by intros ?%elem_of_nil].
  destruct (read_lines self (file_lines content)) as [out err] eqn:Hrun. simpl.
  intros [j Hj]%list_elem_of_lookup_1.
  destruct (read_lines_lookup _ _ _ _ _ _ Hrun Hj) as (line & _ & Hok).
  unfold read_line in Hok.
  apply bind_Ok in Hok as (example & _ & Hok).
  apply bind_Ok in Hok as (lbl & _ & Hok).
  apply bind_Ok in Hok as (sent & _ & Hok).
  apply bind_Ok in Hok as (pos & _ & Hok).
  by apply (Hconv sent pos lbl).
Qed.

End Reading.

(** ** Construction from configuration: [from_params] *)

Section Construction.
Context `{AllenNLP}.

Lemma Params_pop_other (params : Params) (key other : string) (default : pyobj) :
  key ≠ other →
  dict_get (Params_pop params key default).2 other = dict_get params other.
Proof.
  intros Hne. unfold Params_pop.
  destruct (dict_get params key); simpl; [|done].
  by apply dict_get_del_ne.
Qed.

(** What the body does with an unrecognized key: it never gives a reader,
    and once the tokenizer and the token indexers are built the exception
    is the configuration error of [assert_empty]. *)
Lemma from_params_body_unrecognized_key (params : Params) (key : string) :
  is_Some (dict_get params key) →
  key ≠ "tokenizer" → key ≠ "token_indexers" →
  (∃ e : exn, from_params_body params = Raise e) ∧
  (∀ (tokenizer : Tokenizer) (token_indexers : gmap string TokenIndexer),
     let after_tokenizer := Params_pop params "tokenizer" (PyDict []) in
     let after_indexers := Params_pop after_tokenizer.2 "token_indexers" (PyDict []) in
     Tokenizer_from_params after_tokenizer.1 = Ok tokenizer →
     TokenIndexer_dict_from_params after_indexers.1 = Ok token_indexers →
     from_params_body params
     = Raise (ConfigurationError "Extra parameters passed to PubmedRCTReader")).
Proof.
  intros Hkey Hne1 Hne2. unfold from_params_body.
  destruct (Params_pop params "tokenizer" (PyDict [])) as [tokenizer_params rest1] eqn:Hpop1.
  destruct (Params_pop rest1 "token_indexers" (PyDict [])) as [indexer_params rest2] eqn:Hpop2.
  assert (is_Some (dict_get rest2 key)) as Hleft.
  { replace rest2 with (Params_pop rest1 "token_indexers" (PyDict [])).2 by by rewrite Hpop2.
    rewrite Params_pop_other by done.
    replace rest1 with (Params_pop params "tokenizer" (PyDict [])).2 by by rewrite Hpop1.
    by rewrite Params_pop_other by done. }
  apply dict_get_nil_inv in Hleft.
  destruct rest2 as [|kv rest2]; [done|]. simpl. split.
  - destruct (Tokenizer_from_params tokenizer_params); simpl; [|by eexists].
    destruct (TokenIndexer_dict_from_params indexer_params); simpl; by eexists.
  - intros tokenizer token_indexers Htok Hind. simpl in Htok, Hind.
    rewrite Hpop2 in Hind. simpl in Hind. by rewrite Htok; simpl; rewrite Hind.
Qed.

Lemma load_name_Params : load_name "Params" = Raise (NameError "Params").
Proof. reflexivity. Qed.

(** C7, as the code has it.  The [def] of [from_params] evaluates the
    annotation [Params], a name the module never binds: construction from
    the configuration [{"foo": 1}], as from any other, ends with
    [NameError] when the class body runs, and not with the configuration
    error that the body would raise for the unrecognized key. *)
Theorem from_params_name_error :
  from_params [("foo", PyInt 1)] = Raise (NameError "Params") ∧
  ∀ params : Params, from_params params = Raise (NameError "Params").
Proof.
  assert (∀ params : Params, from_params params = Raise (NameError "Params")) as Hall.
  { intros params. unfold from_params, def_from_params.
    by rewrite load_name_Params. }
  split; [apply Hall|exact Hall].
Qed.

End Construction.

(** ** The reader at work on a small corpus *)

(** A host in which tokenizers and token indexers are known by their
    registered names. *)
Definition named_host : AllenNLP := {|
  Tokenizer := string;
  TokenIndexer := string;
  WordTokenizer := "word";
  SingleIdTokenIndexer := "single_id";
  Tokenizer_from_params p :=
    match p with
    | PyDict d =>
        match dict_get d "type" with
        | Some (PyStr name) => Ok name
        | Some _ => Raise (ConfigurationError "type")
        | None => Ok "word"
        end
    | _ => Raise TypeError
    end;
  TokenIndexer_dict_from_params p :=
    match p with
    | PyDict d => Ok (list_to_map ((λ kv : string * pyobj, (kv.1, "single_id")) <$> d))
    | _ => Raise TypeError
    end;
|}.

(** A world with a single file, [corpus.jsonl]. *)
Definition one_file (content : string) : World := {|
  cached_path p := Ok p;
  open_read p :=
    if String.eqb p "corpus.jsonl" then Ok content else Raise (OSError p);
|}.

(** JSON text is written with apostrophes in place of double quotes. *)
Fixpoint json_text (s : string) : string :=
  match s with
  | String c r => String (if Ascii.eqb c "'" then dquote else c) (json_text r)
  | EmptyString => EmptyString
  end.

Definition newline : string := String "010" EmptyString.

Definition methods_line : string :=
  json_text "{'label': 'METHODS', 'sentence': ['we', 'used', 'survey', '.'], 'pos': ['PRP', 'VBD', 'NN', '.'], 'sentence_text': 'We used survey.'}"
  +:+ newline.

Definition unlabelled_line : string :=
  json_text "{'label': '', 'sentence': ['no', 'label'], 'pos': ['DT']}" +:+ newline.

Definition no_pos_line : string :=
  json_text "{'label': 'RESULTS', 'sentence': ['no', 'tags']}" +:+ newline.

Definition broken_line : string := json_text "{'label': 'RESULTS', 'sentence': " +:+ newline.

Definition default_reader : @PubmedRCTReader named_host :=
  @__init__ named_host None None false.

Definition methods_instance : @Instance named_host :=
  {| fields :=
       <[ "label" := LabelField "METHODS" ]>
         (text_fields default_reader
            (PyStr <$> ["we"; "used"; "survey"; "."])
            (PyStr <$> ["PRP"; "VBD"; "NN"; "."])) |}.

Definition unlabelled_instance : @Instance named_host :=
  {| fields := text_fields default_reader (PyStr <$> ["no"; "label"]) (PyStr <$> ["DT"]) |}.

Lemma methods_line_record :
  record methods_line (Some "METHODS") ["we"; "used"; "survey"; "."]
         ["PRP"; "VBD"; "NN"; "."].
Proof.
  exists [("label", PyStr "METHODS");
          ("sentence", str_list ["we"; "used"; "survey"; "."]);
          ("pos", str_list ["PRP"; "VBD"; "NN"; "."]);
          ("sentence_text", PyStr "We used survey.")].
  by vm_compute.
Qed.

Lemma read_line_methods : read_line default_reader methods_line = Ok methods_instance.
Proof.
  rewrite (read_line_record _ _ _ _ _ methods_line_record).
  by rewrite text_to_instance_typed.
Qed.

Lemma opens_one_file (content : string) :
  opens (one_file content) "corpus.jsonl" content.
Proof. by exists "corpus.jsonl". Qed.

(** The scenario of the specification: one line, one instance with the
    tokens and the tags in order and the label [METHODS]. *)
Example read_methods_line :
  _read (one_file methods_line) default_reader "corpus.jsonl"
  = ([methods_instance], None).
Proof.
  rewrite (_read_opens _ _ _ _ (opens_one_file methods_line)).
  change (file_lines methods_line) with [methods_line].
  by rewrite (read_lines_cons_Ok _ _ _ _ read_line_methods).
Qed.

(** The body, had it been reached with the configuration [{"foo": 1}]. *)
Example from_params_body_foo :
  @from_params_body named_host [("foo", PyInt 1)]
  = Raise (ConfigurationError "Extra parameters passed to PubmedRCTReader").
Proof. reflexivity. Qed.

Definition two_records : string := methods_line +:+ unlabelled_line.
Definition missing_pos_corpus : string := methods_line +:+ no_pos_line +:+ methods_line.
Definition broken_corpus : string := methods_line +:+ broken_line +:+ methods_line.

Lemma unlabelled_line_record :
  record unlabelled_line (Some EmptyString) ["no"; "label"] ["DT"].
Proof.
  exists [("label", PyStr EmptyString);
          ("sentence", str_list ["no"; "label"]);
          ("pos", str_list ["DT"])].
  by vm_compute.
Qed.

(** Witness of C1: a file of two well-formed records. *)
Lemma read_well_formed_witness :
  opens (one_file two_records) "corpus.jsonl" two_records ∧
  Forall well_formed (file_lines two_records) ∧
  ∃ out : list (@Instance named_host),
    _read (one_file two_records) default_reader "corpus.jsonl" = (out, None) ∧
    length out = 2.
Proof.
  assert (Forall well_formed (file_lines two_records)) as Hall.
  { change (file_lines two_records) with [methods_line; unlabelled_line].
    repeat constructor.
    - eexists _, _, _. apply methods_line_record.
    - eexists _, _, _. apply unlabelled_line_record. }
  split; [apply opens_one_file|]. split; [exact Hall|].
  destruct (@read_well_formed named_host (one_file two_records) default_reader
              "corpus.jsonl" two_records (opens_one_file _) Hall)
    as (out & Hrun & Hlen & _).
  exists out. split; [exact Hrun|]. exact Hlen.
Defined.

(** Witness of C3: a labelled call. *)
Lemma text_to_instance_label_witness :
  @text_to_instance named_host default_reader
     (str_list ["we"; "used"]) (str_list ["PRP"; "VBD"]) (PyStr "METHODS")
  = Ok {| fields := <[ "label" := LabelField "METHODS" ]>
                      (text_fields default_reader (PyStr <$> ["we"; "used"])
                                   (PyStr <$> ["PRP"; "VBD"])) |} ∧
  fields {| fields := <[ "label" := LabelField "METHODS" ]>
                        (text_fields default_reader (PyStr <$> ["we"; "used"])
                                     (PyStr <$> ["PRP"; "VBD"])) |} !! "label"
  = Some (@LabelField named_host "METHODS").
Proof.
  split; [reflexivity|].
  apply (proj2 (proj1 (@text_to_instance_label named_host default_reader)
                  (str_list ["we"; "used"]) (str_list ["PRP"; "VBD"])
                  (PyStr "METHODS") _ eq_refl) "METHODS" eq_refl).
  discriminate.
Defined.

(** Witness of C4: the second of three lines has no [pos] key. *)
Lemma read_missing_key_witness :
  opens (one_file missing_pos_corpus) "corpus.jsonl" missing_pos_corpus ∧
  file_lines missing_pos_corpus !! 1%nat = Some no_pos_line ∧
  json_loads no_pos_line
  = Ok (PyDict [("label", PyStr "RESULTS"); ("sentence", str_list ["no"; "tags"])]) ∧
  ∃ (out : list (@Instance named_host)) (e : exn),
    _read (one_file missing_pos_corpus) default_reader "corpus.jsonl" = (out, Some e) ∧
    (length out ≤ 1)%nat.
Proof.
  split; [apply opens_one_file|]. split; [reflexivity|]. split; [by vm_compute|].
  destruct (@read_missing_key named_host (one_file missing_pos_corpus) default_reader
              "corpus.jsonl" missing_pos_corpus 1 no_pos_line
              [("label", PyStr "RESULTS"); ("sentence", str_list ["no"; "tags"])]
              (opens_one_file _) eq_refl ltac:(by vm_compute)
              (or_intror (or_intror eq_refl)))
    as (out & e & key & Hrun & Hle & _).
  exists out, e. split; [exact Hrun|exact Hle].
Defined.

(** Witness of C5: the second of three lines is cut short. *)
Lemma read_invalid_json_witness :
  opens (one_file broken_corpus) "corpus.jsonl" broken_corpus ∧
  file_lines broken_corpus !! 1%nat = Some broken_line ∧
  json_loads broken_line = Raise JSONDecodeError ∧
  ∃ (out : list (@Instance named_host)) (e : exn),
    _read (one_file broken_corpus) default_reader "corpus.jsonl" = (out, Some e) ∧
    (length out = 1%nat → e = JSONDecodeError).
Proof.
  split; [apply opens_one_file|]. split; [reflexivity|]. split; [by vm_compute|].
  destruct (@read_invalid_json named_host (one_file broken_corpus) default_reader
              "corpus.jsonl" broken_corpus 1 broken_line
              (opens_one_file _) eq_refl ltac:(by vm_compute))
    as (out & e & Hrun & _ & Hat & _).
  exists out, e. split; [exact Hrun|exact Hat].
Defined.




(** Witness of C10: the instance of the specification's scenario. *)
Lemma instance_well_shaped_witness :
  methods_instance ∈ (_read (one_file methods_line) default_reader "corpus.jsonl").1 ∧
  well_shaped default_reader methods_instance.
Proof.
  assert (methods_instance
          ∈ (_read (one_file methods_line) default_reader "corpus.jsonl").1) as Hin.
  { rewrite read_methods_line. apply list_elem_of_here. }
  split; [exact Hin|].
  exact (proj2 (@instance_well_shaped named_host default_reader) _ _ _ Hin).
Defined.

(** * Further properties *)

(** ** The decoder has fuel enough

    A scan leaves less text than it was given, so two units of fuel per
    character are never used up. *)

Lemma skip_ws_length (s : string) : (String.length (skip_ws s) ≤ String.length s)%nat.
Proof. induction s as [|c r IH]; simpl; [done|]. destruct (is_ws c); simpl; lia. Qed.

Ltac scan_case :=
  match goal with
  | H : context [if Ascii.eqb ?a ?b then _ else _] |- _ => destruct (Ascii.eqb a b) eqn:?
  | H : context [if (?a && ?b) then _ else _] |- _ => destruct (a && b) eqn:?
  | H : context [if N.ltb ?a ?b then _ else _] |- _ => destruct (N.ltb a b) eqn:?
  | H : context [if is_high_surrogate ?u then _ else _] |- _ => destruct (is_high_surrogate u) eqn:?
  | H : context [if is_low_surrogate ?u then _ else _] |- _ => destruct (is_low_surrogate u) eqn:?
  | H : context [match decode_uXXXX ?a ?b ?c ?d with _ => _ end] |- _ =>
      destruct (decode_uXXXX a b c d) eqn:?
  | H : context [match simple_escape ?a with _ => _ end] |- _ =>
      destruct (simple_escape a) eqn:?
  | H : context [match ?s with EmptyString => _ | String _ _ => _ end] |- _ =>
      is_var s; destruct s
  end.

Lemma py_scanstring_length (n : nat) :
  ∀ s t rest, (String.length s ≤ n)%nat → py_scanstring s = Some (t, rest) →
              (String.length rest < String.length s)%nat.
Proof.
  induction n as [|n IH]; intros s t rest Hn Hscan.
  - destruct s; cbn in *; [done|lia].
  - destruct s as [|c r]; [done|].
    cbn [py_scanstring] in Hscan.
    repeat (scan_case; try discriminate);
      cbn [String.length] in *;
      repeat match goal with
      | H : Some _ = Some _ |- _ => injection H as <- <-
      | H : py_scanstring ?x ≫= _ = Some _ |- _ =>
          let E := fresh "E" in
          destruct (py_scanstring x) as [[??]|] eqn:E; [|discriminate];
          cbn [mbind option_bind] in H; apply IH in E; [|cbn [String.length] in *; lia]
      end; cbn [String.length] in *; try lia.
Qed.

Lemma span_digits_length (s ds rest : string) :
  span_digits s = (ds, rest) → (String.length rest ≤ String.length s)%nat.
Proof.
  revert ds rest. induction s as [|c r IH]; intros ds rest; cbn [span_digits].
  - by intros [= <- <-].
  - destruct (is_digit c).
    + destruct (span_digits r) as [ds' rest'] eqn:E. intros [= <- <-].
      specialize (IH _ _ eq_refl). cbn [String.length]. lia.
    + by intros [= <- <-].
Qed.

Lemma strip_prefix_length (p s rest : string) :
  strip_prefix p s = Some rest →
  (String.length rest + String.length p = String.length s)%nat.
Proof.
  revert s. induction p as [|a p IH]; intros [|b s]; cbn [strip_prefix String.length];
    try discriminate.
  - intros [= <-]. done.
  - intros [= <-]. cbn [String.length]. lia.
  - destruct (Ascii.eqb a b); [|discriminate]. intros Hp%IH. lia.
Qed.

Lemma match_integer_length (s ds rest : string) (neg : bool) :
  match_integer s = Some (neg, ds, rest) → (String.length rest < String.length s)%nat.
Proof.
  unfold match_integer.
  destruct s as [|c r]; [done|].
  destruct (Ascii.eqb c "-").
  - destruct r as [|c' r']; [done|].
    destruct (Ascii.eqb c' "0"); [intros [= <- <- <-]; cbn [String.length]; lia|].
    destruct (is_digit c'); [|done].
    destruct (span_digits r') as [ds' rest'] eqn:E. intros [= <- <- <-].
    apply span_digits_length in E. cbn [String.length]. lia.
  - destruct (Ascii.eqb c "0"); [intros [= <- <- <-]; cbn [String.length]; lia|].
    destruct (is_digit c); [|done].
    destruct (span_digits r) as [ds' rest'] eqn:E. intros [= <- <- <-].
    apply span_digits_length in E. cbn [String.length]. lia.
Qed.

Lemma match_frac_length (s fs rest : string) :
  match_frac s = (fs, rest) → (String.length rest ≤ String.length s)%nat.
Proof.
  unfold match_frac. destruct s as [|c r]; [by intros [= <- <-]|].
  destruct (Ascii.eqb c "."); [|by intros [= <- <-]].
  destruct (span_digits r) as [[|d ds] rest'] eqn:E; intros [= <- <-]; [done|].
  apply span_digits_length in E. cbn [String.length]. lia.
Qed.

Lemma match_exp_length (s rest : string) (ex : option Z) :
  match_exp s = (ex, rest) → (String.length rest ≤ String.length s)%nat.
Proof.
  unfold match_exp. destruct s as [|c r]; [by intros [= <- <-]|].
  destruct (Ascii.eqb c "e" || Ascii.eqb c "E"); [|by intros [= <- <-]].
  destruct r as [|sg r'].
  - cbn [span_digits]. by intros [= <- <-].
  - destruct (Ascii.eqb sg "-").
    + destruct (span_digits r') as [[|d ds] rest'] eqn:E; intros [= <- <-]; [done|].
      apply span_digits_length in E. cbn [String.length]. lia.
    + destruct (Ascii.eqb sg "+").
      * destruct (span_digits r') as [[|d ds] rest'] eqn:E; intros [= <- <-]; [done|].
        apply span_digits_length in E. cbn [String.length]. lia.
      * destruct (span_digits (String sg r')) as [[|d ds] rest'] eqn:E;
          intros [= <- <-]; [done|].
        apply span_digits_length in E. cbn [String.length] in *. lia.
Qed.

Lemma match_number_length (s rest : string) (v : pyobj) :
  match_number s = Some (v, rest) → (String.length rest < String.length s)%nat.
Proof.
  unfold match_number.
  destruct (match_integer s) as [[[neg ds] s1]|] eqn:Hint; [|done].
  destruct (match_frac s1) as [fs s2] eqn:Hfrac.
  destruct (match_exp s2) as [ex s3] eqn:Hexp.
  apply match_integer_length in Hint. apply match_frac_length in Hfrac.
  apply match_exp_length in Hexp.
  destruct fs, ex; intros [= <- <-]; lia.
Qed.

Lemma scan_map_Scanned {A B : Type} (f : A → B) (x : scan A) (b : B) (rest : string) :
  scan_map f x = Scanned b rest → ∃ a, x = Scanned a rest.
Proof. destruct x; [|done..]. intros [= <- <-]. eauto. Qed.

Lemma scan_map_OutOfFuel {A B : Type} (f : A → B) (x : scan A) :
  scan_map f x = OutOfFuel → x = OutOfFuel.
Proof. by destruct x. Qed.

(** One case split on the test at the head of a scan that is stuck. *)
Ltac scan_split H :=
  match type of H with
  | context [if Ascii.eqb ?a ?b then _ else _] => destruct (Ascii.eqb a b) eqn:?
  | context [match skip_ws ?r with _ => _ end] => destruct (skip_ws r) eqn:?
  | context [match py_scanstring ?r with _ => _ end] =>
      destruct (py_scanstring r) as [[??]|] eqn:?
  | context [match strip_prefix ?p ?s with _ => _ end] => destruct (strip_prefix p s) eqn:?
  | context [match match_number ?s with _ => _ end] =>
      destruct (match_number s) as [[??]|] eqn:?
  | context [match scan_once ?f ?s with _ => _ end] => destruct (scan_once f s) eqn:?
  end.

(** What the equations in the context say about lengths. *)
Ltac scan_lengths :=
  repeat match goal with
  | E : skip_ws ?r = _ |- _ =>
      let L := fresh "L" in
      pose proof (skip_ws_length r) as L; rewrite E in L; clear E
  | E : py_scanstring ?r = Some _ |- _ =>
      apply (py_scanstring_length (String.length r) r _ _ (le_n _)) in E
  | E : strip_prefix _ _ = Some _ |- _ => apply strip_prefix_length in E
  | E : match_number _ = Some _ |- _ => apply match_number_length in E
  | H : context [String.length (skip_ws ?r)] |- _ =>
      lazymatch goal with
      | _ : (String.length (skip_ws r) ≤ String.length r)%nat |- _ => fail
      | _ => pose proof (skip_ws_length r)
      end
  | |- context [String.length (skip_ws ?r)] =>
      lazymatch goal with
      | _ : (String.length (skip_ws r) ≤ String.length r)%nat |- _ => fail
      | _ => pose proof (skip_ws_length r)
      end
  end;
  cbn [String.length] in *.

Lemma scan_length (fuel : nat) :
  (∀ s v rest, scan_once fuel s = Scanned v rest →
               (String.length rest < String.length s)%nat) ∧
  (∀ s vs rest, JSONArray_values fuel s = Scanned vs rest →
                (String.length rest < String.length s)%nat) ∧
  (∀ s ps rest, JSONObject_pairs fuel s = Scanned ps rest →
                (String.length rest < String.length s)%nat).
Proof.
  induction fuel as [|fuel (IHonce & IHvalues & IHpairs)]; [done|].
  split; [|split].
  - intros s v rest H. cbn [scan_once] in H. destruct s as [|c r]; [done|].
    repeat (scan_split H; try discriminate);
      repeat match goal with
      | H : scan_map _ _ = Scanned _ _ |- _ => apply scan_map_Scanned in H as [? H]
      | H : JSONObject_pairs fuel _ = Scanned _ _ |- _ => apply IHpairs in H
      | H : JSONArray_values fuel _ = Scanned _ _ |- _ => apply IHvalues in H
      | H : Scanned _ _ = Scanned _ _ |- _ => injection H as <- <-
      end; scan_lengths; lia.
  - intros s vs rest H. cbn [JSONArray_values] in H.
    repeat (scan_split H; try discriminate);
      repeat match goal with
      | H : scan_map _ _ = Scanned _ _ |- _ => apply scan_map_Scanned in H as [? H]
      | H : scan_once fuel _ = Scanned _ _ |- _ => apply IHonce in H
      | H : JSONArray_values fuel _ = Scanned _ _ |- _ => apply IHvalues in H
      | H : Scanned _ _ = Scanned _ _ |- _ => injection H as <- <-
      end; scan_lengths; lia.
  - intros s ps rest H. cbn [JSONObject_pairs] in H.
    repeat (scan_split H; try discriminate);
      repeat match goal with
      | H : scan_map _ _ = Scanned _ _ |- _ => apply scan_map_Scanned in H as [? H]
      | H : scan_once fuel _ = Scanned _ _ |- _ => apply IHonce in H
      | H : JSONObject_pairs fuel _ = Scanned _ _ |- _ => apply IHpairs in H
      | H : Scanned _ _ = Scanned _ _ |- _ => injection H as <- <-
      end; scan_lengths; lia.
Qed.

(** Closes a goal whose context says that a scan with enough fuel ran out. *)
Ltac out_of_fuel IHonce IHvalues IHpairs :=
  exfalso;
  match goal with
  | H : scan_once _ ?x = OutOfFuel |- _ => apply (IHonce x); [|exact H]
  | H : JSONArray_values _ ?x = OutOfFuel |- _ => apply (IHvalues x); [|exact H]
  | H : JSONObject_pairs _ ?x = OutOfFuel |- _ => apply (IHpairs x); [|exact H]
  end;
  scan_lengths; lia.

Lemma scan_fuel (fuel : nat) :
  (∀ s, (2 * String.length s + 1 ≤ fuel)%nat → scan_once fuel s ≠ OutOfFuel) ∧
  (∀ s, (2 * String.length s + 2 ≤ fuel)%nat → JSONArray_values fuel s ≠ OutOfFuel) ∧
  (∀ s, (2 * String.length s + 2 ≤ fuel)%nat → JSONObject_pairs fuel s ≠ OutOfFuel).
Proof.
  induction fuel as [|fuel (IHonce & IHvalues & IHpairs)].
  { repeat split; intros s Hs; lia. }
  destruct (scan_length fuel) as (Lonce & Lvalues & Lpairs).
  split; [|split].
  - intros s Hs H. cbn [scan_once] in H. destruct s as [|c r]; [done|].
    repeat (scan_split H; try discriminate);
      repeat match goal with
      | H : scan_map _ _ = OutOfFuel |- _ => apply scan_map_OutOfFuel in H
      end;
      out_of_fuel IHonce IHvalues IHpairs.
  - intros s Hs H. cbn [JSONArray_values] in H.
    repeat (scan_split H; try discriminate);
      repeat match goal with
      | H : scan_map _ _ = OutOfFuel |- _ => apply scan_map_OutOfFuel in H
      | H : scan_once fuel _ = Scanned _ _ |- _ => apply Lonce in H
      end;
      out_of_fuel IHonce IHvalues IHpairs.
  - intros s Hs H. cbn [JSONObject_pairs] in H.
    repeat (scan_split H; try discriminate);
      repeat match goal with
      | H : scan_map _ _ = OutOfFuel |- _ => apply scan_map_OutOfFuel in H
      | H : scan_once fuel _ = Scanned _ _ |- _ => apply Lonce in H
      end;
      out_of_fuel IHonce IHvalues IHpairs.
Qed.

(** The decoder never runs out of fuel. *)
Lemma scan_once_fuel (s : string) :
  scan_once (2 * String.length s + 1) (skip_ws s) ≠ OutOfFuel.
Proof.
  apply scan_fuel. pose proof (skip_ws_length s). lia.
Qed.


(** ** The dict of a decoded object *)

Lemma dict_get_set_eq {V : Type} (d : list (string * V)) (k : string) (v : V) :
  dict_get (dict_set d k v) k = Some v.
Proof.
  induction d as [|[k0 w] d IH]; simpl.
  - by rewrite String.eqb_refl.
  - destruct (String.eqb_spec k0 k) as [->|Hne]; simpl.
    + by rewrite String.eqb_refl.
    + by destruct (String.eqb_spec k0 k).
Qed.

Lemma dict_get_set_ne {V : Type} (d : list (string * V)) (k k' : string) (v : V) :
  k ≠ k' → dict_get (dict_set d k v) k' = dict_get d k'.
Proof.
  intros Hne. induction d as [|[k0 w] d IH]; simpl.
  - by destruct (String.eqb_spec k k').
  - destruct (String.eqb_spec k0 k) as [->|Hk]; simpl.
    + by destruct (String.eqb_spec k k').
    + by rewrite IH.
Qed.

Lemma dict_set_keys {V : Type} (d : list (string * V)) (k : string) (v : V) :
  (dict_set d k v).*1 = if bool_decide (k ∈ d.*1) then d.*1 else (d.*1 ++ [k])%list.
Proof.
  induction d as [|[k0 w] d IH]; [done|]. cbn [dict_set].
  destruct (String.eqb_spec k0 k) as [->|Hk]; rewrite !fmap_cons; cbn [fst].
  - rewrite bool_decide_eq_true_2; [done|]. apply list_elem_of_here.
  - rewrite IH. destruct (bool_decide_reflect (k ∈ d.*1)) as [Hin|Hnin].
    + rewrite bool_decide_eq_true_2; [done|]. by apply list_elem_of_further.
    + rewrite bool_decide_eq_false_2; [done|].
      intros [?|?]%elem_of_cons; congruence.
Qed.

Lemma dict_set_NoDup {V : Type} (d : list (string * V)) (k : string) (v : V) :
  NoDup d.*1 → NoDup (dict_set d k v).*1.
Proof.
  intros Hd. rewrite dict_set_keys.
  destruct (bool_decide_reflect (k ∈ d.*1)); [done|].
  apply NoDup_app. split; [done|]. split; [|apply NoDup_singleton].
  intros x Hx ->%list_elem_of_singleton. done.
Qed.

Lemma dict_get_app {V : Type} (d1 d2 : list (string * V)) (k : string) :
  dict_get (d1 ++ d2)%list k =
  match dict_get d1 k with
  | Some v => Some v
  | None => dict_get d2 k
  end.
Proof.
  induction d1 as [|[k0 w] d1 IH]; simpl; [done|].
  by destruct (String.eqb k0 k).
Qed.

Lemma dict_fold_get {V : Type} (pairs acc : list (string * V)) (k : string) :
  dict_get (fold_left (λ d kv, dict_set d kv.1 kv.2) pairs acc) k =
  match dict_get (reverse pairs) k with
  | Some v => Some v
  | None => dict_get acc k
  end.
Proof.
  revert acc. induction pairs as [|[k0 v0] pairs IH]; intros acc; simpl; [done|].
  rewrite IH, reverse_cons, dict_get_app. simpl.
  destruct (dict_get (reverse pairs) k); [done|].
  destruct (String.eqb_spec k0 k) as [->|Hne].
  - apply dict_get_set_eq.
  - by apply dict_get_set_ne.
Qed.

Lemma dict_fold_NoDup {V : Type} (pairs acc : list (string * V)) :
  NoDup acc.*1 → NoDup (fold_left (λ d kv, dict_set d kv.1 kv.2) pairs acc).*1.
Proof.
  revert acc. induction pairs as [|kv pairs IH]; intros acc Hacc; simpl; [done|].
  apply IH. by apply dict_set_NoDup.
Qed.

(** X2. The dict built from the pairs of a JSON object has every key
    once, and gives for a key the value of the last pair that has it. *)
Theorem dict_of_pairs_last {V : Type} (pairs : list (string * V)) :
  NoDup (dict_of_pairs pairs).*1 ∧
  ∀ key, dict_get (dict_of_pairs pairs) key = dict_get (reverse pairs) key.
Proof.
  unfold dict_of_pairs. split.
  - apply dict_fold_NoDup. constructor.
  - intros key. rewrite dict_fold_get. by destruct (dict_get (reverse pairs) key).
Qed.

(** ** The lines of a file *)

Lemma file_lines_cons_nonempty (c : ascii) (content : string) :
  file_lines (String c content) ≠ [].
Proof. simpl. destruct (Ascii.eqb c "010"); [done|]. by destruct (file_lines content). Qed.


(** A content that ends with a line feed splits where it ends. *)
Lemma file_lines_app (content more : string) :
  file_lines ((content +:+ String "010" EmptyString) +:+ more)
  = (file_lines (content +:+ String "010" EmptyString) ++ file_lines more)%list.
Proof.
  induction content as [|c content IH]; simpl; [done|].
  destruct (Ascii.eqb c "010"); simpl; [by rewrite IH|].
  rewrite IH.
  destruct (file_lines (content +:+ String "010" EmptyString)) as [|line lines] eqn:E;
    [|done].
  exfalso. destruct content; simpl in E; [done|].
  by apply file_lines_cons_nonempty in E.
Qed.

Lemma match_number_not_dict (s rest : string) (d : list (string * pyobj)) :
  match_number s ≠ Some (PyDict d, rest).
Proof.
  unfold match_number.
  destruct (match_integer s) as [[[neg ds] s1]|]; [|done].
  destruct (match_frac s1) as [fs s2]. destruct (match_exp s2) as [ex s3].
  by destruct fs, ex.
Qed.

Lemma scan_once_dict (fuel : nat) (s rest : string) (d : list (string * pyobj)) :
  scan_once fuel s = Scanned (PyDict d) rest → NoDup d.*1.
Proof.
  destruct fuel as [|fuel]; [done|]. intros H. cbn [scan_once] in H.
  destruct s as [|c r]; [done|].
  repeat (scan_split H; try discriminate);
    try (apply scan_map_Scanned in H as Hx; destruct Hx as [pairs Hpairs];
         rewrite Hpairs in H; cbn [scan_map] in H);
    simplify_eq.
  all: try (unfold dict_of_pairs; apply dict_fold_NoDup; constructor).
  all: try constructor.
  all: try by (exfalso; eapply match_number_not_dict).
Qed.

(** X4. An object decoded by [json_loads] has every key once, however
    often the text repeats it. *)
Theorem json_loads_dict_keys (s : string) (d : list (string * pyobj)) :
  json_loads s = Ok (PyDict d) → NoDup d.*1.
Proof.
  unfold json_loads.
  destruct (scan_once _ _) as [v rest| |] eqn:Hscan; [|done..].
  destruct (skip_ws rest); [|done]. intros [= ->].
  by apply scan_once_dict in Hscan.
Qed.

(** ** More on the conversion *)

(** What [for x in v] accepts, and what [LabelField] accepts. *)
Definition iterable (v : pyobj) : bool :=
  match v with
  | PyList _ | PyStr _ | PyDict _ => true
  | _ => false
  end.

Definition is_str (v : pyobj) : bool :=
  match v with
  | PyStr _ => true
  | _ => false
  end.

Definition label_error : exn :=
  ConfigurationError "LabelFields must be passed a string label if skip_indexing=False.".

Lemma py_iter_iterable (v : pyobj) :
  iterable v = true → ∃ items, py_iter v = Ok items.
Proof. destruct v; try done; simpl; eauto. Qed.

Lemma py_iter_not_iterable (v : pyobj) :
  iterable v = false → py_iter v = Raise TypeError.
Proof. by destruct v. Qed.

Lemma py_iter_raise (v : pyobj) (e : exn) : py_iter v = Raise e → e = TypeError.
Proof. destruct v; try done; by intros [= <-]. Qed.

(** The characters of a text without UTF-8 continuation bytes are its
    bytes. *)
Lemma str_chars_bytes (s : string) :
  Forall (λ c, is_continuation c = false) (list_ascii_of_string s) →
  str_chars s = (λ c, String c EmptyString) <$> list_ascii_of_string s.
Proof.
  induction s as [|c r IH]; [done|]. cbn [list_ascii_of_string].
  intros [Hc Hr]%Forall_cons. cbn [str_chars]. rewrite (IH Hr).
  destruct r as [|c' r']; [done|].
  cbn [list_ascii_of_string fmap list_fmap starts_with_continuation].
  apply Forall_cons in Hr as [-> _]. done.
Qed.

Lemma ascii_not_continuation (c : ascii) :
  (N_of_ascii c < 128)%N → is_continuation c = false.
Proof.
  intros Hc. unfold is_continuation. apply andb_false_intro1.
  apply N.leb_gt. exact Hc.
Qed.

Section More_conversion.
Context `{AllenNLP}.
Implicit Types (self : PubmedRCTReader) (sent pos label : pyobj).

(** The conversion, by the outcome of the two iterations. *)
Lemma text_to_instance_cases self sent pos label :
  text_to_instance self sent pos label =
  match py_iter sent, py_iter pos with
  | Ok sent_items, Ok pos_items =>
      if truthy label then
        match label with
        | PyStr s =>
            Ok {| fields := <[ "label" := LabelField s ]>
                              (text_fields self sent_items pos_items) |}
        | _ => Raise label_error
        end
      else Ok {| fields := text_fields self sent_items pos_items |}
  | Ok _, Raise e => Raise e
  | Raise e, _ => Raise e
  end.
Proof.
  unfold text_to_instance.
  destruct (py_iter sent) as [sent_items|]; [|done].
  destruct (py_iter pos) as [pos_items|]; [|done]. simpl.
  destruct (truthy label); [|done]. by destruct label.
Qed.

(** X5. [text_to_instance] returns an instance exactly when [sent] and
    [pos] can be iterated over (a list, a string or a dict) and the label
    is either false in a boolean test or a string. *)
Theorem text_to_instance_returns self sent pos label :
  (∃ instance : Instance, text_to_instance self sent pos label = Ok instance) ↔
  iterable sent = true ∧ iterable pos = true ∧
  (truthy label = false ∨ is_str label = true).
Proof.
  rewrite text_to_instance_cases. split.
  - intros [instance Hret].
    destruct (iterable sent) eqn:Hsent;
      [|by rewrite (py_iter_not_iterable _ Hsent) in Hret].
    destruct (iterable pos) eqn:Hpos.
    2:{ rewrite (py_iter_not_iterable _ Hpos) in Hret. by destruct (py_iter sent). }
    split; [done|]. split; [done|].
    destruct (py_iter sent); [|done]. destruct (py_iter pos); [|done].
    destruct (truthy label); [right|by left]. by destruct label.
  - intros (Hsent & Hpos & Hlabel).
    destruct (py_iter_iterable _ Hsent) as [sent_items ->].
    destruct (py_iter_iterable _ Hpos) as [pos_items ->].
    destruct (truthy label) eqn:Htruthy; [|by eexists].
    destruct Hlabel as [|Hstr]; [done|]. destruct label; try done. by eexists.
Qed.

(** X6. [text_to_instance] raises [TypeError] exactly when [sent] or [pos]
    cannot be iterated over, and the configuration error of [LabelField]
    exactly when both can and the label is true in a boolean test without
    being a string; it raises nothing else. *)
Theorem text_to_instance_raises self sent pos label (e : exn) :
  text_to_instance self sent pos label = Raise e ↔
  (e = TypeError ∧ (iterable sent = false ∨ iterable pos = false)) ∨
  (e = label_error ∧ iterable sent = true ∧ iterable pos = true ∧
   truthy label = true ∧ is_str label = false).
Proof.
  rewrite text_to_instance_cases. split.
  - intros Hraise.
    destruct (iterable sent) eqn:Hsent.
    2:{ rewrite (py_iter_not_iterable _ Hsent) in Hraise.
        injection Hraise as <-. left. eauto. }
    destruct (iterable pos) eqn:Hpos.
    2:{ rewrite (py_iter_not_iterable _ Hpos) in Hraise.
        destruct (py_iter_iterable _ Hsent) as [sent_items Hs]. rewrite Hs in Hraise.
        injection Hraise as <-. left. eauto. }
    destruct (py_iter_iterable _ Hsent) as [sent_items Hs].
    destruct (py_iter_iterable _ Hpos) as [pos_items Hp].
    rewrite Hs, Hp in Hraise. right.
    destruct (truthy label) eqn:Htruthy; [|done].
    destruct label; try done; by injection Hraise as <-.
  - intros [[-> [Hsent|Hpos]] | (-> & Hsent & Hpos & Htruthy & Hstr)].
    + by rewrite (py_iter_not_iterable _ Hsent).
    + rewrite (py_iter_not_iterable _ Hpos).
      destruct (py_iter sent) as [|e'] eqn:Hs; [done|].
      by rewrite (py_iter_raise _ _ Hs).
    + destruct (py_iter_iterable _ Hsent) as [sent_items ->].
      destruct (py_iter_iterable _ Hpos) as [pos_items ->].
      rewrite Htruthy. by destruct label.
Qed.

(** X7. A label that is false in a boolean test is dropped without an
    error, whatever its type: [None], the empty string, [0], [0.0],
    [False], an empty list or an empty dict all give an instance with no
    [label] field. *)
Theorem text_to_instance_falsy_label self sent pos label :
  iterable sent = true → iterable pos = true → truthy label = false →
  ∃ instance : Instance,
    text_to_instance self sent pos label = Ok instance ∧
    fields instance !! "label" = None.
Proof.
  intros Hsent Hpos Hlabel. rewrite text_to_instance_cases.
  destruct (py_iter_iterable _ Hsent) as [sent_items ->].
  destruct (py_iter_iterable _ Hpos) as [pos_items ->].
  rewrite Hlabel. eexists. split; [done|]. apply text_fields_label.
Qed.

(** X8. The elements of the two lists are not inspected: whatever their
    types, each becomes the text of one token, in order. *)
Theorem text_to_instance_items self (sent_items pos_items : list pyobj) label
    (instance : Instance) :
  text_to_instance self (PyList sent_items) (PyList pos_items) label = Ok instance →
  ∃ sent_tokens pos_tokens : list Token,
    fields instance !! "sentence" = Some (TextField sent_tokens (_token_indexers self)) ∧
    fields instance !! "pos" = Some (TextField pos_tokens (_token_indexers self)) ∧
    text <$> sent_tokens = sent_items ∧ text <$> pos_tokens = pos_items.
Proof.
  intros Hret.
  destruct (text_to_instance_Ok _ _ _ _ _ Hret)
    as (s & p & [= <-] & [= <-] & [[_ Hf] | (l & _ & _ & Hf)]);
    exists (Build_Token <$> sent_items), (Build_Token <$> pos_items); rewrite Hf.
  - rewrite text_fields_sentence, text_fields_pos.
    split; [done|]. split; [done|].
    rewrite <- !list_fmap_compose. split; apply list_fmap_id.
  - rewrite !lookup_insert_ne by done.
    rewrite text_fields_sentence, text_fields_pos.
    split; [done|]. split; [done|].
    rewrite <- !list_fmap_compose. split; apply list_fmap_id.
Qed.

(** X9. A sentence passed as a plain string is not rejected: it is taken
    apart into its characters, one token each (here for ASCII text). *)
Theorem text_to_instance_string_sentence self (s : string) (pos_items : list pyobj) :
  Forall (λ c, (N_of_ascii c < 128)%N) (list_ascii_of_string s) →
  text_to_instance self (PyStr s) (PyList pos_items) PyNone
  = Ok {| fields :=
            text_fields self
              ((λ c, PyStr (String c EmptyString)) <$> list_ascii_of_string s)
              pos_items |}.
Proof.
  intros Hascii. rewrite text_to_instance_cases. cbn [py_iter truthy].
  rewrite str_chars_bytes.
  - by rewrite <- list_fmap_compose.
  - eapply Forall_impl; [exact Hascii|]. apply ascii_not_continuation.
Qed.

End More_conversion.

(** ** More on reading *)

Section More_reading.
Context `{AllenNLP}.
Implicit Types (self : PubmedRCTReader) (w : World) (lines : list string).

(** The body of the loop, by what the line decodes to. *)
Lemma read_line_cases self (line : string) :
  read_line self line =
  match json_loads line with
  | Raise e => Raise e
  | Ok (PyDict d) =>
      match dict_get d "label", dict_get d "sentence", dict_get d "pos" with
      | None, _, _ => Raise (KeyError "label")
      | Some _, None, _ => Raise (KeyError "sentence")
      | Some _, Some _, None => Raise (KeyError "pos")
      | Some label, Some sent, Some pos => text_to_instance self sent pos label
      end
  | Ok _ => Raise TypeError
  end.
Proof.
  unfold read_line. destruct (json_loads line) as [example|]; [|done]. simpl.
  destruct example; try done. simpl.
  destruct (dict_get d "label"); [|done]. simpl.
  destruct (dict_get d "sentence"); [|done]. simpl.
  by destruct (dict_get d "pos").
Qed.



Lemma read_lines_app self lines1 lines2 :
  read_lines self (lines1 ++ lines2)%list =
  match read_lines self lines1 with
  | (out1, None) =>
      ((out1 ++ (read_lines self lines2).1)%list, (read_lines self lines2).2)
  | (out1, Some e) => (out1, Some e)
  end.
Proof.
  induction lines1 as [|line lines1 IH]; simpl.
  - by destruct (read_lines self lines2).
  - destruct (read_line self line) as [instance|e]; [|done].
    rewrite IH. destruct (read_lines self lines1) as [out1 [e|]]; [done|].
    by destruct (read_lines self lines2).
Qed.

(** X10. A line that holds valid JSON other than an object (a list, a
    string, a number, [true], [false] or [null]) makes the loop body raise
    [TypeError], not a lookup error. *)
Theorem read_line_not_object self (line : string) (v : pyobj) :
  json_loads line = Ok v → (∀ d, v ≠ PyDict d) →
  read_line self line = Raise TypeError.
Proof.
  intros Hloads Hv. rewrite read_line_cases, Hloads.
  destruct v; try done. by destruct (Hv d).
Qed.

(** X11. The keys are looked up in the order [label], [sentence], [pos],
    and the lookup error names the first one that is missing; it is raised
    before the values of the keys that are there are looked at. *)
Theorem read_line_first_missing_key self (line : string) (d : list (string * pyobj)) :
  json_loads line = Ok (PyDict d) →
  (dict_get d "label" = None → read_line self line = Raise (KeyError "label")) ∧
  (is_Some (dict_get d "label") → dict_get d "sentence" = None →
   read_line self line = Raise (KeyError "sentence")) ∧
  (is_Some (dict_get d "label") → is_Some (dict_get d "sentence") →
   dict_get d "pos" = None → read_line self line = Raise (KeyError "pos")).
Proof.
  intros Hloads. rewrite read_line_cases, Hloads. split; [|split].
  - by intros ->.
  - by intros [? ->] ->.
  - by intros [? ->] [? ->] ->.
Qed.

(** X12. Only the keys [label], [sentence] and [pos] of a record count:
    two lines whose objects agree on these three are converted alike,
    whatever else the objects hold ([sentence_text] is never read). *)
Theorem read_line_other_keys self (line1 line2 : string)
    (d1 d2 : list (string * pyobj)) :
  json_loads line1 = Ok (PyDict d1) → json_loads line2 = Ok (PyDict d2) →
  (∀ key, key ∈ ["label"; "sentence"; "pos"] → dict_get d1 key = dict_get d2 key) →
  read_line self line1 = read_line self line2.
Proof.
  intros Hloads1 Hloads2 Hagree. rewrite !read_line_cases, Hloads1, Hloads2.
  rewrite (Hagree "label"), (Hagree "sentence"), (Hagree "pos"); [done|..].
  - do 2 apply list_elem_of_further. apply list_elem_of_here.
  - do 1 apply list_elem_of_further. apply list_elem_of_here.
  - apply list_elem_of_here.
Qed.

(** X13. A run of [_read] over an open file yields the conversions of the
    lines, in order, up to the first line whose conversion raises, and
    ends with the exception of that line; when no line raises it yields
    one instance per line and ends without an exception. *)
Theorem read_run w self (file_path content : string)
    (out : list Instance) (err : option exn) :
  opens w file_path content →
  _read w self file_path = (out, err) →
  Forall2 (λ line instance, read_line self line = Ok instance)
          (take (length out) (file_lines content)) out ∧
  match err with
  | None => length out = length (file_lines content)
  | Some e =>
      ∃ line, file_lines content !! length out = Some line ∧
              read_line self line = Raise e
  end.
Proof.
  intros Hopen. rewrite (_read_opens _ _ _ _ Hopen). apply read_lines_spec.
Qed.

(** X14. Reading two corpora put end to end, the first one ending with a
    line feed: when the first is read without an error the instances of
    the second follow those of the first, and otherwise the run is the run
    over the first alone, whatever the second holds. *)
Theorem read_concat (w1 w2 w : World) self (path1 path2 file_path : string)
    (first more : string) :
  opens w1 path1 (first +:+ String "010" EmptyString) →
  opens w2 path2 more →
  opens w file_path ((first +:+ String "010" EmptyString) +:+ more) →
  _read w self file_path =
  match _read w1 self path1 with
  | (out1, None) =>
      ((out1 ++ (_read w2 self path2).1)%list, (_read w2 self path2).2)
  | (out1, Some e) => (out1, Some e)
  end.
Proof.
  intros Hopen1 Hopen2 Hopen.
  rewrite (_read_opens _ _ _ _ Hopen), (_read_opens _ _ _ _ Hopen1),
    (_read_opens _ _ _ _ Hopen2).
  by rewrite file_lines_app, read_lines_app.
Qed.


(** X16. When the path cannot be resolved, or the resolved file cannot be
    opened, [_read] yields nothing and ends with that very exception. *)
Theorem read_not_opened w self (file_path : string) (e : exn) :
  cached_path w file_path = Raise e ∨
  (∃ local_path, cached_path w file_path = Ok local_path ∧
                 open_read w local_path = Raise e) →
  _read w self file_path = ([], Some e).
Proof.
  unfold _read. intros [-> | (local_path & -> & ->)]; done.
Qed.

(** X17. The [lazy] flag is stored and never read by the reader itself:
    two readers that differ in it alone convert and read alike. *)
Theorem lazy_unused (tokenizer : option Tokenizer)
    (token_indexers : option (gmap string TokenIndexer)) (lazy1 lazy2 : bool) :
  let self1 := __init__ tokenizer token_indexers lazy1 in
  let self2 := __init__ tokenizer token_indexers lazy2 in
  (∀ sent pos label : pyobj,
     text_to_instance self1 sent pos label = text_to_instance self2 sent pos label) ∧
  (∀ w (file_path : string), _read w self1 file_path = _read w self2 file_path).
Proof.
  intros self1 self2. split.
  - intros sent pos label. by apply text_to_instance_indexers.
  - intros w file_path. unfold _read.
    destruct (cached_path w file_path) as [local_path|]; [|done].
    destruct (open_read w local_path) as [content|]; [|done].
    by apply read_lines_indexers.
Qed.

End More_reading.

(** ** More on construction *)

Section More_construction.
Context `{AllenNLP}.


(** X18. The token indexers of a reader are never an empty mapping: a
    mapping that is given and not empty is kept, and an empty one is
    replaced by the default just as a missing one is. *)
Theorem init_token_indexers (tokenizer : option Tokenizer)
    (token_indexers : option (gmap string TokenIndexer)) (lazy : bool) :
  _token_indexers (__init__ tokenizer token_indexers lazy) ≠ ∅ ∧
  (∀ d, token_indexers = Some d → d ≠ ∅ →
        _token_indexers (__init__ tokenizer token_indexers lazy) = d) ∧
  (token_indexers = None ∨ token_indexers = Some ∅ →
   _token_indexers (__init__ tokenizer token_indexers lazy)
   = {[ "tokens" := SingleIdTokenIndexer ]}).
Proof.
  unfold __init__; simpl. split; [|split].
  - destruct token_indexers as [d|]; simpl.
    + destruct (bool_decide_reflect (d = ∅)); simpl; [|done].
      apply insert_non_empty.
    + apply insert_non_empty.
  - intros d -> Hd. simpl. by rewrite bool_decide_eq_false_2.
  - intros [-> | ->]; [done|]. simpl. by rewrite bool_decide_eq_true_2.
Qed.



End More_construction.

(** ** The further properties at work *)

Definition repeated_label_line : string :=
  json_text "{'label': 'OBJECTIVE', 'label': 'RESULTS'}" +:+ newline.

Definition list_line : string := json_text "['we', 'used']" +:+ newline.

Definition methods_record : string :=
  json_text "{'label': 'METHODS', 'sentence': ['we', 'used', 'survey', '.'], 'pos': ['PRP', 'VBD', 'NN', '.'], 'sentence_text': 'We used survey.'}".

Definition methods_line_bare : string :=
  json_text "{'pos': ['PRP', 'VBD', 'NN', '.'], 'sentence': ['we', 'used', 'survey', '.'], 'label': 'METHODS'}"
  +:+ newline.


(** Witness of X4: a label written twice. *)
Lemma json_loads_dict_keys_witness :
  json_loads repeated_label_line = Ok (PyDict [("label", PyStr "RESULTS")]) ∧
  NoDup [("label", PyStr "RESULTS")].*1.
Proof.
  assert (json_loads repeated_label_line = Ok (PyDict [("label", PyStr "RESULTS")]))
    as Hloads by by vm_compute.
  split; [exact Hloads|]. exact (json_loads_dict_keys _ _ Hloads).
Defined.

(** Witness of X5: a string, a dict and the label [0]. *)
Lemma text_to_instance_returns_witness :
  ∃ instance : @Instance named_host,
    text_to_instance default_reader (PyStr "ab") (PyDict []) (PyInt 0) = Ok instance.
Proof.
  apply (proj2 (@text_to_instance_returns named_host default_reader
                  (PyStr "ab") (PyDict []) (PyInt 0))).
  split; [reflexivity|]. split; [reflexivity|]. left. reflexivity.
Defined.

(** Witness of X6: a number in place of the sentence. *)
Lemma text_to_instance_raises_witness :
  @text_to_instance named_host default_reader (PyInt 3) (PyList []) PyNone
  = Raise TypeError.
Proof.
  apply (proj2 (@text_to_instance_raises named_host default_reader
                  (PyInt 3) (PyList []) PyNone TypeError)).
  left. split; [reflexivity|]. left. reflexivity.
Defined.

(** Witness of X7: the label [0.0]. *)
Lemma text_to_instance_falsy_label_witness :
  iterable (PyList [PyStr "we"]) = true ∧ iterable (PyList []) = true ∧
  truthy (PyFloat (FDec false 0 (-1))) = false ∧
  ∃ instance : @Instance named_host,
    text_to_instance default_reader (PyList [PyStr "we"]) (PyList [])
                     (PyFloat (FDec false 0 (-1)))
    = Ok instance ∧
    fields instance !! "label" = None.
Proof.
  split; [reflexivity|]. split; [reflexivity|]. split; [reflexivity|].
  exact (@text_to_instance_falsy_label named_host default_reader
           (PyList [PyStr "we"]) (PyList []) (PyFloat (FDec false 0 (-1)))
           eq_refl eq_refl eq_refl).
Defined.

(** Witness of X8: a number and [null] among the tokens. *)
Lemma text_to_instance_items_witness :
  ∃ sent_tokens pos_tokens : list Token,
    fields {| fields := text_fields default_reader [PyInt 7; PyNone] [PyStr "CD"] |}
      !! "sentence"
    = Some (@TextField named_host sent_tokens (_token_indexers default_reader)) ∧
    fields {| fields := text_fields default_reader [PyInt 7; PyNone] [PyStr "CD"] |}
      !! "pos"
    = Some (@TextField named_host pos_tokens (_token_indexers default_reader)) ∧
    text <$> sent_tokens = [PyInt 7; PyNone] ∧ text <$> pos_tokens = [PyStr "CD"].
Proof.
  exact (@text_to_instance_items named_host default_reader
           [PyInt 7; PyNone] [PyStr "CD"] PyNone
           {| fields := text_fields default_reader [PyInt 7; PyNone] [PyStr "CD"] |}
           eq_refl).
Defined.

(** Witness of X9: the sentence ["we"]. *)
Lemma text_to_instance_string_sentence_witness :
  Forall (λ c, (N_of_ascii c < 128)%N) (list_ascii_of_string "we") ∧
  @text_to_instance named_host default_reader (PyStr "we") (PyList []) PyNone
  = Ok {| fields := text_fields default_reader [PyStr "w"; PyStr "e"] [] |}.
Proof.
  assert (Forall (λ c, (N_of_ascii c < 128)%N) (list_ascii_of_string "we")) as Hascii.
  { repeat constructor. }
  split; [exact Hascii|].
  exact (@text_to_instance_string_sentence named_host default_reader "we" [] Hascii).
Defined.

(** Witness of X10: a line that holds a list. *)
Lemma read_line_not_object_witness :
  json_loads list_line = Ok (PyList [PyStr "we"; PyStr "used"]) ∧
  @read_line named_host default_reader list_line = Raise TypeError.
Proof.
  assert (json_loads list_line = Ok (PyList [PyStr "we"; PyStr "used"])) as Hloads
    by by vm_compute.
  split; [exact Hloads|].
  apply (@read_line_not_object named_host default_reader _ _ Hloads).
  discriminate.
Defined.

(** Witness of X11: a record without [pos]. *)
Lemma read_line_first_missing_key_witness :
  json_loads no_pos_line
  = Ok (PyDict [("label", PyStr "RESULTS"); ("sentence", str_list ["no"; "tags"])]) ∧
  @read_line named_host default_reader no_pos_line = Raise (KeyError "pos").
Proof.
  assert (json_loads no_pos_line
          = Ok (PyDict [("label", PyStr "RESULTS"); ("sentence", str_list ["no"; "tags"])]))
    as Hloads by by vm_compute.
  split; [exact Hloads|].
  apply (proj2 (proj2 (@read_line_first_missing_key named_host default_reader _ _ Hloads))).
  - by eexists.
  - by eexists.
  - reflexivity.
Defined.

(** Witness of X12: the same record with and without [sentence_text], its
    keys in another order. *)
Lemma read_line_other_keys_witness :
  @read_line named_host default_reader methods_line
  = read_line default_reader methods_line_bare.
Proof.
  apply (@read_line_other_keys named_host default_reader methods_line methods_line_bare
           [("label", PyStr "METHODS");
            ("sentence", str_list ["we"; "used"; "survey"; "."]);
            ("pos", str_list ["PRP"; "VBD"; "NN"; "."]);
            ("sentence_text", PyStr "We used survey.")]
           [("pos", str_list ["PRP"; "VBD"; "NN"; "."]);
            ("sentence", str_list ["we"; "used"; "survey"; "."]);
            ("label", PyStr "METHODS")]).
  - by vm_compute.
  - by vm_compute.
  - intros key Hkey.
    repeat (apply elem_of_cons in Hkey as [->|Hkey]; [reflexivity|]).
    by apply elem_of_nil in Hkey.
Defined.

(** Witness of X13: the file of the scenario. *)
Lemma read_run_witness :
  opens (one_file methods_line) "corpus.jsonl" methods_line ∧
  _read (one_file methods_line) default_reader "corpus.jsonl"
  = ([methods_instance], None) ∧
  length [methods_instance] = length (file_lines methods_line).
Proof.
  split; [apply opens_one_file|]. split; [apply read_methods_line|].
  exact (proj2 (@read_run named_host (one_file methods_line) default_reader
                  "corpus.jsonl" methods_line [methods_instance] None
                  (opens_one_file _) read_methods_line)).
Defined.

(** Witness of X14: the scenario's record followed by an unlabelled one. *)
Lemma read_concat_witness :
  _read (one_file ((methods_record +:+ String "010" EmptyString) +:+ unlabelled_line))
        default_reader "corpus.jsonl"
  = match _read (one_file (methods_record +:+ String "010" EmptyString))
                default_reader "corpus.jsonl" with
    | (out1, None) =>
        ((out1 ++ (_read (one_file unlabelled_line) default_reader "corpus.jsonl").1)%list,
         (_read (one_file unlabelled_line) default_reader "corpus.jsonl").2)
    | (out1, Some e) => (out1, Some e)
    end.
Proof.
  exact (@read_concat named_host _ _ _ default_reader _ _ _ methods_record unlabelled_line
           (opens_one_file _) (opens_one_file _) (opens_one_file _)).
Defined.


(** Witness of X16: a path that is not that of the file. *)
Lemma read_not_opened_witness :
  @_read named_host (one_file newline) default_reader "missing.jsonl"
  = ([], Some (OSError "missing.jsonl")).
Proof.
  apply (@read_not_opened named_host (one_file newline) default_reader).
  right. exists "missing.jsonl". split; reflexivity.
Defined.

(** Witness of X18: a mapping with one indexer of the caller's. *)
Lemma init_token_indexers_witness :
  ({[ "chars" := "characters" ]} : gmap string string) ≠ ∅ ∧
  _token_indexers (@__init__ named_host None (Some {[ "chars" := "characters" ]}) false)
  = {[ "chars" := "characters" ]}.
Proof.
  assert (({[ "chars" := "characters" ]} : gmap string string) ≠ ∅) as Hne
    by apply map_non_empty_singleton.
  split; [exact Hne|].
  exact (proj1 (proj2 (@init_token_indexers named_host None
                         (Some {[ "chars" := "characters" ]}) false))
           _ eq_refl Hne).
Defined.


